(** * Kafka topic and Kafka ACL resources of the Confluent Terraform provider

    A shallow embedding of [internal/provider/resource_kafka_topic.go] and of
    the Kafka ACL resource (the [kafkaAcl*] functions), followed by the
    properties that the specification states about them.

    Conventions of the embedding:
    - a Go [string] is a [string] (a sequence of bytes);
    - a Go [map[string]string] is a [gmap string string]; a [range] loop over
      a map visits its entries in an order the language leaves open, which is
      the [MapRange] interface below;
    - a Go [error] is a value of [error], [nil] is [None];
    - [diag.Diagnostics] is the list of the error diagnostics it carries;
    - the two REST services are the [KafkaRest] interface: every call goes
      through the [World], which records it in [calls];
    - [d.Set] of a value of the attribute's own type does not fail, and
      neither does [json.Marshal] of the structs of strings that are logged:
      their error branches are left out, as are [tflog] and [time.Sleep],
      which have no effect on any returned value. *)

From stdpp Require Import base strings list gmap fin_maps.
From Stdlib Require Import ZArith Ascii.

Open Scope string_scope.
Open Scope Z_scope.
Open Scope list_scope.

(** ** The Go [strings] functions the provider uses *)

Module GoStrings.

(** [strings.Split(s, sep)] for a separator of one byte: the pieces of [s]
    between the occurrences of [sep]; a string with [n] occurrences has
    [n + 1] pieces, so the result is never empty. *)
Fixpoint Split (s : string) (sep : Ascii.ascii) : list string :=
  match s with
  | EmptyString => [EmptyString]
  | String c rest =>
      if Ascii.eqb c sep then EmptyString :: Split rest sep
      else match Split rest sep with
           | [] => [String c EmptyString]
           | piece :: pieces => String c piece :: pieces
           end
  end.

(** [strings.Join(elems, sep)]. *)
Fixpoint Join (elems : list string) (sep : string) : string :=
  match elems with
  | [] => ""
  | [e] => e
  | e :: rest => e +:+ sep +:+ Join rest sep
  end.

(** [strings.HasPrefix(s, prefix)]. *)
Definition HasPrefix (s prefix : string) : bool := String.prefix prefix s.

(** The byte [c] occurs in [s]. *)
Fixpoint contains_byte (c : Ascii.ascii) (s : string) : bool :=
  match s with
  | EmptyString => false
  | String c' rest => Ascii.eqb c' c || contains_byte c rest
  end.

End GoStrings.

(** ** Errors and diagnostics *)

(** The errors the two resources build with [fmt.Errorf] and [diag.Errorf],
    one constructor per message, carrying the values the message formats;
    [RemoteError] is an error handed back by a REST client. *)
#[warnings="-register-all"]
Inductive error : Type :=
  | RemoteError (msg : string)
  | EnvironmentError (msg : string)
  | Descriptive (err : error)
  | ErrTopicOnlyBlocksUpdatable (id : string)
  | ErrTopicSettingRemoved (id : string)
  | ErrTopicSettingReadOnly (id name : string)
  | ErrTopicSettingsOutdated (id : string) (outdated : list string)
  | ErrTopicImportFormat
  | ErrTopicImport (id : string) (err : option error)
  | ErrTopicLoadConfigs (topicName : string) (err : option error)
  | ErrAclUnknownEnum (kind value : string)
  | ErrAclNoneMatched (id : string)
  | ErrAclMultipleMatched (id : string)
  | ErrAclImportFormat
  | ErrAclDeserializeFormat
  | ErrAclImport (id : string) (err : option error)
  | ErrAclOnlyCredentialsUpdatable (id : string).

(** [diag.Diagnostics]: [nil] (the empty list) is success. *)
Definition Diagnostics := list error.

Definition diag_Errorf (e : error) : Diagnostics := [e].

Definition diag_FromErr (err : option error) : Diagnostics :=
  match err with
  | None => []
  | Some e => [e]
  end.

Definition HasError (diags : Diagnostics) : bool :=
  match diags with
  | [] => false
  | _ :: _ => true
  end.

(** Modelled from the spec: [createDescriptiveError] is a helper of the
    provider outside the files embedded here. "All other remote errors are
    wrapped with descriptive context": it keeps [nil] and wraps an error. *)
Definition createDescriptiveError (err : option error) : option error :=
  Descriptive <$> err.

(** Modelled from the spec: [stringInSlice target slice false] is a helper of
    the provider outside the files embedded here; with its case flag off it
    is membership in the allow-list. *)
Definition stringInSlice (target : string) (slice : list string) : bool :=
  bool_decide (target ∈ slice).

(** ** The plugin SDK's [schema.ResourceData] *)

(** The attribute names of the two resources (the [param*] constants). *)
Inductive Param : Type :=
  | paramKafkaCluster
  | paramTopicName
  | paramPartitionsCount
  | paramHttpEndpoint
  | paramConfigs
  | paramCredentials
  | paramResourceName
  | paramResourceType
  | paramPatternType
  | paramPrincipal
  | paramHost
  | paramOperation
  | paramPermission
  | paramRestEndpoint.

#[global] Instance Param_eq_dec : EqDecision Param.
Proof. solve_decision. Defined.

(** The attributes of a resource type: its schema keys and, per key, whether
    two attribute records differ there ([reflect.DeepEqual] on the values). *)
Class Schema (F : Type) := {
  schema_keys : list Param;
  attr_differs : Param → F → F → bool;
}.

(** [d]: the resource ID, the new-resource mark, the prior state (the old
    side of [GetChange]) and the attributes that [Get] reads and [Set]
    writes (the new side of [GetChange]). *)
Record ResourceData (F : Type) := mkResourceData {
  rd_id : string;
  rd_isNew : bool;
  rd_state : F;
  rd_attrs : F;
}.
Arguments mkResourceData {F}.
Arguments rd_id {F}.
Arguments rd_isNew {F}.
Arguments rd_state {F}.
Arguments rd_attrs {F}.

Section ResourceDataOps.
Context {F : Type} `{Schema F}.

Definition Id (d : ResourceData F) : string := rd_id d.

Definition SetId (v : string) (d : ResourceData F) : ResourceData F :=
  mkResourceData v (rd_isNew d) (rd_state d) (rd_attrs d).

Definition IsNewResource (d : ResourceData F) : bool := rd_isNew d.

Definition MarkNewResource (d : ResourceData F) : ResourceData F :=
  mkResourceData (rd_id d) true (rd_state d) (rd_attrs d).

(** [d.Set(key, value)], as a function on the attribute record. *)
Definition Set_ (f : F → F) (d : ResourceData F) : ResourceData F :=
  mkResourceData (rd_id d) (rd_isNew d) (rd_state d) (f (rd_attrs d)).

Definition HasChange (d : ResourceData F) (key : Param) : bool :=
  attr_differs key (rd_state d) (rd_attrs d).

(** [d.HasChangesExcept(keys...)]: some schema key outside [keys] has a
    change. *)
Definition HasChangesExcept (d : ResourceData F) (keys : list Param) : bool :=
  existsb (λ a, negb (bool_decide (a ∈ keys)) && HasChange d a) schema_keys.

End ResourceDataOps.

(** ** The REST clients *)

(** [*http.Response], as far as the provider looks at it. *)
Record Response := mkResponse { StatusCode : Z }.

Definition StatusNotFound : Z := 404.

(** The outcome [(value, resp, err)] of a generated REST client method:
    [ApiErr resp err] when [err != nil] ([resp] may be [nil]). *)
Inductive ApiResult (A : Type) : Type :=
  | ApiOk (value : A)
  | ApiErr (resp : option Response) (err : error).
Arguments ApiOk {A}.
Arguments ApiErr {A}.

(** Modelled from the spec: [ResponseHasExpectedStatusCode] is a helper of the
    provider outside the files embedded here; "Remote 404 on read": there is
    a response and its status code is the expected one. *)
Definition ResponseHasExpectedStatusCode (resp : option Response) (expected : Z) : bool :=
  match resp with
  | None => false
  | Some r => bool_decide (StatusCode r = expected)
  end.

(** [KafkaRestClient]: the per-cluster client the factory builds. *)
Record KafkaRestClient := CreateKafkaRestClient {
  httpEndpoint : string;
  clusterId : string;
  clusterApiKey : string;
  clusterApiSecret : string;
}.

(** The ACL resource reads the same field under the name [restEndpoint]. *)
Definition restEndpoint (c : KafkaRestClient) : string := httpEndpoint c.

(** [kafkarestv3.TopicData], the fields the provider reads. *)
Record TopicData := mkTopicData {
  TopicName : string;
  PartitionsCount : Z;
}.

(** [kafkarestv3.ConfigSource] is a string type. *)
Definition CONFIGSOURCE_DYNAMIC_TOPIC_CONFIG : string := "DYNAMIC_TOPIC_CONFIG".

(** [kafkarestv3.TopicConfigData]: [Value] is a [*string]. *)
Record TopicConfigData := mkTopicConfigData {
  cfg_Name : string;
  cfg_Value : option string;
  cfg_Source : string;
}.

(** [kafkarestv3.AlterConfigBatchRequestDataData]: [Value] is a [*string]. *)
Record AlterConfigBatchRequestDataData := mkAlterConfig {
  Name : string;
  Value : option string;
}.

(** [kafkarestv3.AclData]; the four enumerations are string types. *)
Record AclData := mkAclData {
  acl_ResourceType : string;
  acl_ResourceName : string;
  acl_PatternType : string;
  acl_Principal : string;
  acl_Host : string;
  acl_Operation : string;
  acl_Permission : string;
}.

(** [kafkarestv3.GetKafkaV3AclsOpts]: seven optional filters, all of which the
    provider sets. *)
Record GetKafkaV3AclsOpts := mkGetKafkaV3AclsOpts {
  opt_ResourceType : string;
  opt_ResourceName : string;
  opt_PatternType : string;
  opt_Principal : string;
  opt_Host : string;
  opt_Operation : string;
  opt_Permission : string;
}.

#[global] Instance Response_eq_dec : EqDecision Response.
Proof. solve_decision. Defined.
#[global] Instance AlterConfig_eq_dec : EqDecision AlterConfigBatchRequestDataData.
Proof. solve_decision. Defined.
#[global] Instance AclData_eq_dec : EqDecision AclData.
Proof. solve_decision. Defined.

(** The remote services, over a state [W] of the remote side: each method
    takes the remote state and gives the outcome and the next remote state.
    [principalWithResourceIdToPrincipalWithIntegerId] asks the control plane
    for the integer ID of a principal. *)
Class KafkaRest (W : Type) := {
  GetKafkaV3Topic : KafkaRestClient → string → W → ApiResult TopicData * W;
  ListKafkaV3TopicConfigs :
    KafkaRestClient → string → W → ApiResult (list TopicConfigData) * W;
  UpdateKafkaV3TopicConfigBatch :
    KafkaRestClient → string → list AlterConfigBatchRequestDataData → W →
    ApiResult unit * W;
  GetKafkaV3Acls :
    KafkaRestClient → GetKafkaV3AclsOpts → W → ApiResult (list AclData) * W;
  LookupPrincipalIntegerId : string → W → (error + string) * W;
}.

(** One entry of the record of remote calls. *)
Inductive Call : Type :=
  | CallGetTopic (c : KafkaRestClient) (topicName : string)
  | CallListTopicConfigs (c : KafkaRestClient) (topicName : string)
  | CallUpdateTopicConfigBatch (c : KafkaRestClient) (topicName : string)
      (data : list AlterConfigBatchRequestDataData)
  | CallGetAcls (c : KafkaRestClient) (opts : GetKafkaV3AclsOpts)
  | CallLookupPrincipal (principal : string).

(** The world a provider operation runs in: the remote state and the calls
    made so far, oldest first. *)
Record World (W : Type) := mkWorld {
  remote : W;
  calls : list Call;
}.
Arguments mkWorld {W}.
Arguments remote {W}.
Arguments calls {W}.

(** Computations that talk to the remote side. *)
Definition M (W A : Type) : Type := World W → A * World W.

#[global] Instance M_ret W : MRet (M W) := λ A a w, (a, w).
#[global] Instance M_bind W : MBind (M W) :=
  λ A B f m w, let '(a, w') := m w in f a w'.

Section RemoteCalls.
Context {W : Type} `{KafkaRest W}.

(** A remote call: the method runs on the remote state and is recorded. *)
Definition remote_call {A} (call : Call) (method : W → A * W) : M W A :=
  λ w, let '(a, r) := method (remote w) in (a, mkWorld r (calls w ++ [call])).

Definition apiGetKafkaV3Topic (c : KafkaRestClient) (topicName : string)
  : M W (ApiResult TopicData) :=
  remote_call (CallGetTopic c topicName) (GetKafkaV3Topic c topicName).

Definition apiListKafkaV3TopicConfigs (c : KafkaRestClient) (topicName : string)
  : M W (ApiResult (list TopicConfigData)) :=
  remote_call (CallListTopicConfigs c topicName) (ListKafkaV3TopicConfigs c topicName).

Definition executeKafkaTopicUpdate (c : KafkaRestClient) (topicName : string)
    (requestData : list AlterConfigBatchRequestDataData) : M W (ApiResult unit) :=
  remote_call (CallUpdateTopicConfigBatch c topicName requestData)
    (UpdateKafkaV3TopicConfigBatch c topicName requestData).

Definition executeKafkaAclRead (c : KafkaRestClient) (opts : GetKafkaV3AclsOpts)
  : M W (ApiResult (list AclData)) :=
  remote_call (CallGetAcls c opts) (GetKafkaV3Acls c opts).

(** Modelled from the spec: [principalWithResourceIdToPrincipalWithIntegerId]
    is a helper of the provider outside the files embedded here; "principal-ID
    translation between human-readable and integer forms for ACLs", which the
    control plane answers. *)
Definition principalWithResourceIdToPrincipalWithIntegerId (principal : string)
  : M W (error + string) :=
  remote_call (CallLookupPrincipal principal) (LookupPrincipalIntegerId principal).

End RemoteCalls.

(** The order in which a [range] loop visits a map: every entry once. *)
Class MapRange := {
  range : gmap string string → list (string * string);
  range_perm : ∀ m, range m ≡ₚ map_to_list m;
}.

(** [checkEnvironmentVariablesForKafkaImportAreSet] lies outside the files
    embedded here; an import takes its outcome, the three variables or an
    error. *)
Record KafkaImportEnvVars := mkKafkaImportEnvVars {
  kafkaApiKey : string;
  kafkaApiSecret : string;
  kafkaHttpEndpoint : string;
}.

(** ** The Kafka topic resource ([resource_kafka_topic.go]) *)

(** The attributes of [kafkaTopicResource]'s schema. The [kafka_cluster] and
    [credentials] blocks are lists of exactly one element ([MinItems] and
    [MaxItems] are 1): they are kept as that element's fields. *)
Record TopicAttrs := mkTopicAttrs {
  t_kafka_cluster_id : string;
  t_topic_name : string;
  t_partitions_count : Z;
  t_http_endpoint : string;
  t_config : gmap string string;
  t_credentials_key : string;
  t_credentials_secret : string;
}.

#[global] Instance TopicSchema : Schema TopicAttrs := {|
  schema_keys := [paramKafkaCluster; paramTopicName; paramPartitionsCount;
                  paramHttpEndpoint; paramConfigs; paramCredentials];
  attr_differs key old new :=
    match key with
    | paramKafkaCluster => bool_decide (t_kafka_cluster_id old ≠ t_kafka_cluster_id new)
    | paramTopicName => bool_decide (t_topic_name old ≠ t_topic_name new)
    | paramPartitionsCount => bool_decide (t_partitions_count old ≠ t_partitions_count new)
    | paramHttpEndpoint => bool_decide (t_http_endpoint old ≠ t_http_endpoint new)
    | paramConfigs => bool_decide (t_config old ≠ t_config new)
    | paramCredentials =>
        bool_decide ((t_credentials_key old, t_credentials_secret old)
                     ≠ (t_credentials_key new, t_credentials_secret new))
    | _ => false
    end
|}.

Definition TopicResourceData := ResourceData TopicAttrs.

(** The attribute writes of [readTopicAndSetAttributes]. *)
Definition set_kafka_cluster_id (v : string) (a : TopicAttrs) : TopicAttrs :=
  mkTopicAttrs v (t_topic_name a) (t_partitions_count a) (t_http_endpoint a)
    (t_config a) (t_credentials_key a) (t_credentials_secret a).
Definition set_topic_name (v : string) (a : TopicAttrs) : TopicAttrs :=
  mkTopicAttrs (t_kafka_cluster_id a) v (t_partitions_count a) (t_http_endpoint a)
    (t_config a) (t_credentials_key a) (t_credentials_secret a).
Definition set_partitions_count (v : Z) (a : TopicAttrs) : TopicAttrs :=
  mkTopicAttrs (t_kafka_cluster_id a) (t_topic_name a) v (t_http_endpoint a)
    (t_config a) (t_credentials_key a) (t_credentials_secret a).
Definition set_http_endpoint (v : string) (a : TopicAttrs) : TopicAttrs :=
  mkTopicAttrs (t_kafka_cluster_id a) (t_topic_name a) (t_partitions_count a) v
    (t_config a) (t_credentials_key a) (t_credentials_secret a).
Definition set_config (v : gmap string string) (a : TopicAttrs) : TopicAttrs :=
  mkTopicAttrs (t_kafka_cluster_id a) (t_topic_name a) (t_partitions_count a)
    (t_http_endpoint a) v (t_credentials_key a) (t_credentials_secret a).
Definition set_topic_credentials (key secret : string) (a : TopicAttrs) : TopicAttrs :=
  mkTopicAttrs (t_kafka_cluster_id a) (t_topic_name a) (t_partitions_count a)
    (t_http_endpoint a) (t_config a) key secret.

Definition editableTopicSettings : list string :=
  ["delete.retention.ms"; "max.message.bytes"; "max.compaction.lag.ms";
   "message.timestamp.difference.max.ms"; "message.timestamp.type";
   "min.compaction.lag.ms"; "min.insync.replicas";
   "retention.bytes"; "retention.ms"; "segment.bytes"; "segment.ms"].

(** [fmt.Sprintf("%s/%s", clusterId, topicName)]. *)
Definition createKafkaTopicId (clusterId topicName : string) : string :=
  clusterId +:+ "/" +:+ topicName.

(** The client an operation builds from the attributes of [d]. *)
Definition topicClient (d : TopicResourceData) : KafkaRestClient :=
  CreateKafkaRestClient (t_http_endpoint (rd_attrs d)) (t_kafka_cluster_id (rd_attrs d))
    (t_credentials_key (rd_attrs d)) (t_credentials_secret (rd_attrs d)).

(** [extractOldAndNewTopicSettings]: the two sides of the change of [config]. *)
Definition extractOldAndNewTopicSettings (d : TopicResourceData)
  : gmap string string * gmap string string :=
  (t_config (rd_state d), t_config (rd_attrs d)).

(** The loop of [loadTopicConfigs] over [topicConfigList.Data], started on
    the map [config]. *)
Fixpoint collectDynamicConfigs (data : list TopicConfigData) (config : gmap string string)
  : gmap string string :=
  match data with
  | [] => config
  | remoteConfig :: rest =>
      match cfg_Value remoteConfig with
      | Some v =>
          if bool_decide (cfg_Source remoteConfig = CONFIGSOURCE_DYNAMIC_TOPIC_CONFIG)
          then collectDynamicConfigs rest (<[cfg_Name remoteConfig := v]> config)
          else collectDynamicConfigs rest config
      | None => collectDynamicConfigs rest config
      end
  end.

(** First loop of [kafkaTopicUpdate]: over the old settings, stop with the
    diagnostic at the first name that the new settings lack. *)
Fixpoint verifyNoTopicSettingRemoved (id : string) (oldEntries : list (string * string))
    (newTopicSettingsMap : gmap string string) : option Diagnostics :=
  match oldEntries with
  | [] => None
  | (oldTopicSettingName, _) :: rest =>
      match newTopicSettingsMap !! oldTopicSettingName with
      | None => Some (diag_Errorf (ErrTopicSettingRemoved id))
      | Some _ => verifyNoTopicSettingRemoved id rest newTopicSettingsMap
      end
  end.

(** [isTopicSettingValueUpdated] of the second loop:
    [!(ok && oldTopicSettingValue == newTopicSettingValue)]. *)
Definition isTopicSettingValueUpdated (oldTopicSettingsMap : gmap string string)
    (topicSettingName newTopicSettingValue : string) : bool :=
  negb (match oldTopicSettingsMap !! topicSettingName with
        | Some oldTopicSettingValue => bool_decide (oldTopicSettingValue = newTopicSettingValue)
        | None => false
        end).

(** Second loop of [kafkaTopicUpdate]: over the new settings, append every
    updated editable setting to the batch, stop with the diagnostic at the
    first updated setting that is not editable. *)
Fixpoint collectTopicSettingsUpdateBatch (id : string) (newEntries : list (string * string))
    (oldTopicSettingsMap : gmap string string)
    (topicSettingsUpdateBatch : list AlterConfigBatchRequestDataData)
  : Diagnostics + list AlterConfigBatchRequestDataData :=
  match newEntries with
  | [] => inr topicSettingsUpdateBatch
  | (topicSettingName, newTopicSettingValue) :: rest =>
      if isTopicSettingValueUpdated oldTopicSettingsMap topicSettingName newTopicSettingValue
      then
        if stringInSlice topicSettingName editableTopicSettings
        then collectTopicSettingsUpdateBatch id rest oldTopicSettingsMap
               (topicSettingsUpdateBatch ++ [mkAlterConfig topicSettingName (Some newTopicSettingValue)])
        else inl (diag_Errorf (ErrTopicSettingReadOnly id topicSettingName))
      else collectTopicSettingsUpdateBatch id rest oldTopicSettingsMap topicSettingsUpdateBatch
  end.

(** The batch that the second loop of [kafkaTopicUpdate] ends with when it
    does not stop early, in closed form: the entries it finds updated, in
    their order. *)
Definition changedSettings (old : gmap string string) (entries : list (string * string))
  : list AlterConfigBatchRequestDataData :=
  (λ kv, mkAlterConfig kv.1 (Some kv.2)) <$> filter (λ kv, old !! kv.1 ≠ Some kv.2) entries.

(** Third loop of [kafkaTopicUpdate]: sort the names of the batch into
    [updatedTopicSettings] and [outdatedTopicSettings]. *)
Fixpoint compareTopicSettings (batch : list AlterConfigBatchRequestDataData)
    (actualTopicSettings : gmap string string)
    (updatedTopicSettings outdatedTopicSettings : list string)
  : list string * list string :=
  match batch with
  | [] => (updatedTopicSettings, outdatedTopicSettings)
  | v :: rest =>
      match Value v with
      | None => compareTopicSettings rest actualTopicSettings
                  updatedTopicSettings outdatedTopicSettings
      | Some expectedValue =>
          match actualTopicSettings !! Name v with
          | Some actualValue =>
              if bool_decide (actualValue ≠ expectedValue)
              then compareTopicSettings rest actualTopicSettings
                     updatedTopicSettings (outdatedTopicSettings ++ [Name v])
              else compareTopicSettings rest actualTopicSettings
                     (updatedTopicSettings ++ [Name v]) outdatedTopicSettings
          | None => compareTopicSettings rest actualTopicSettings
                      (updatedTopicSettings ++ [Name v]) outdatedTopicSettings
          end
      end
  end.

(** The diagnostics that [kafkaTopicUpdate] builds after the comparison, when
    [len(outdatedTopicSettings) > 0]. *)
Definition outdatedTopicSettingsDiagnostics (id : string) (outdatedTopicSettings : list string)
  : Diagnostics :=
  if bool_decide (0 < length outdatedTopicSettings)%nat
  then diag_Errorf (ErrTopicSettingsOutdated id outdatedTopicSettings)
  else [].

Section TopicOperations.
Context {W : Type} `{KafkaRest W} `{MapRange}.

Definition loadTopicConfigs (d : TopicResourceData) (c : KafkaRestClient) (topicName : string)
  : M W (error + gmap string string) :=
  topicConfigList ← apiListKafkaV3TopicConfigs c topicName;
  match topicConfigList with
  | ApiErr _ err =>
      mret (inl (ErrTopicLoadConfigs topicName (createDescriptiveError (Some err))))
  | ApiOk data => mret (inr (collectDynamicConfigs data ∅))
  end.

Definition readTopicAndSetAttributes (d : TopicResourceData) (c : KafkaRestClient)
    (topicName : string) : M W (option error * TopicResourceData) :=
  fetched ← apiGetKafkaV3Topic c topicName;
  match fetched with
  | ApiErr resp err =>
      let isResourceNotFound := ResponseHasExpectedStatusCode resp StatusNotFound in
      if isResourceNotFound && negb (IsNewResource d)
      then mret (None, SetId "" d)
      else mret (Some err, d)
  | ApiOk kafkaTopic =>
      let d := Set_ (set_kafka_cluster_id (clusterId c)) d in
      let d := Set_ (set_topic_name (TopicName kafkaTopic)) d in
      let d := Set_ (set_partitions_count (PartitionsCount kafkaTopic)) d in
      loaded ← loadTopicConfigs d c topicName;
      match loaded with
      | inl err => mret (Some err, d)
      | inr configs =>
          let d := Set_ (set_config configs) d in
          let d := Set_ (set_topic_credentials (clusterApiKey c) (clusterApiSecret c)) d in
          let d := Set_ (set_http_endpoint (httpEndpoint c)) d in
          mret (None, SetId (createKafkaTopicId (clusterId c) topicName) d)
      end
  end.

Definition kafkaTopicRead (d : TopicResourceData) : M W (Diagnostics * TopicResourceData) :=
  let kafkaRestClient := topicClient d in
  let topicName := t_topic_name (rd_attrs d) in
  '(err, d') ← readTopicAndSetAttributes d kafkaRestClient topicName;
  mret (diag_FromErr (createDescriptiveError err), d').

(** [kafkaTopicImport]; [envCheck] is the outcome of
    [checkEnvironmentVariablesForKafkaImportAreSet]. *)
Definition kafkaTopicImport (envCheck : error + KafkaImportEnvVars) (d : TopicResourceData)
  : M W (option error * TopicResourceData) :=
  match envCheck with
  | inl err => mret (Some err, d)
  | inr kafkaImportEnvVars =>
      let clusterIDAndTopicName := Id d in
      let parts := GoStrings.Split clusterIDAndTopicName "/"%char in
      if bool_decide (length parts ≠ 2%nat)
      then mret (Some ErrTopicImportFormat, d)
      else
        let clusterId := nth 0 parts "" in
        let topicName := nth 1 parts "" in
        let kafkaRestClient :=
          CreateKafkaRestClient (kafkaHttpEndpoint kafkaImportEnvVars) clusterId
            (kafkaApiKey kafkaImportEnvVars) (kafkaApiSecret kafkaImportEnvVars) in
        let d := MarkNewResource d in
        '(err, d') ← readTopicAndSetAttributes d kafkaRestClient topicName;
        match err with
        | Some e => mret (Some (ErrTopicImport (Id d') (createDescriptiveError (Some e))), d')
        | None => mret (None, d')
        end
  end.

Definition kafkaTopicUpdate (d : TopicResourceData) : M W Diagnostics :=
  if HasChangesExcept d [paramCredentials; paramConfigs]
  then mret (diag_Errorf (ErrTopicOnlyBlocksUpdatable (Id d)))
  else if HasChange d paramConfigs then
    let '(oldTopicSettingsMap, newTopicSettingsMap) := extractOldAndNewTopicSettings d in
    match verifyNoTopicSettingRemoved (Id d) (range oldTopicSettingsMap) newTopicSettingsMap with
    | Some diags => mret diags
    | None =>
        match collectTopicSettingsUpdateBatch (Id d) (range newTopicSettingsMap)
                oldTopicSettingsMap [] with
        | inl diags => mret diags
        | inr topicSettingsUpdateBatch =>
            let kafkaRestClient := topicClient d in
            let topicName := t_topic_name (rd_attrs d) in
            sent ← executeKafkaTopicUpdate kafkaRestClient topicName topicSettingsUpdateBatch;
            match sent with
            | ApiErr _ err => mret (diag_FromErr (createDescriptiveError (Some err)))
            | ApiOk _ =>
                loaded ← loadTopicConfigs d kafkaRestClient topicName;
                match loaded with
                | inl err => mret (diag_FromErr (createDescriptiveError (Some err)))
                | inr actualTopicSettings =>
                    let '(updatedTopicSettings, outdatedTopicSettings) :=
                      compareTopicSettings topicSettingsUpdateBatch actualTopicSettings [] [] in
                    (* the diagnostics are built and dropped: the source has
                       no [return] before [diag.Errorf] here *)
                    let _ := outdatedTopicSettingsDiagnostics (Id d) outdatedTopicSettings in
                    mret []
                end
            end
        end
    end
  else mret [].

End TopicOperations.

(** ** The Kafka ACL resource *)

Definition principalPrefix : string := "User:".

Definition acceptedResourceTypes : list string :=
  ["UNKNOWN"; "ANY"; "TOPIC"; "GROUP"; "CLUSTER"; "TRANSACTIONAL_ID"; "DELEGATION_TOKEN"].
Definition acceptedPatternTypes : list string :=
  ["UNKNOWN"; "ANY"; "MATCH"; "LITERAL"; "PREFIXED"].
Definition acceptedOperations : list string :=
  ["UNKNOWN"; "ANY"; "ALL"; "READ"; "WRITE"; "CREATE"; "DELETE"; "ALTER"; "DESCRIBE";
   "CLUSTER_ACTION"; "DESCRIBE_CONFIGS"; "ALTER_CONFIGS"; "IDEMPOTENT_WRITE"].
Definition acceptedPermissions : list string :=
  ["UNKNOWN"; "ANY"; "DENY"; "ALLOW"].

(** The provider's [Acl] struct; the four enumerations are the SDK's string
    types [AclResourceType], [AclPatternType], [AclOperation] and
    [AclPermission]. *)
Record Acl := mkAcl {
  ResourceType : string;
  ResourceName : string;
  PatternType : string;
  Principal : string;
  Host : string;
  Operation : string;
  Permission : string;
}.

#[global] Instance Acl_eq_dec : EqDecision Acl.
Proof. solve_decision. Defined.

(** Modelled from the spec: [stringToAclResourceType] is a helper of the
    provider outside the files embedded here, as are the three converters
    after it. The four ACL enumerations are the accepted lists of the schema:
    a converter takes the name of a value of its enumeration to that value
    and fails on any other string. *)
Definition stringToAclResourceType (s : string) : error + string :=
  if stringInSlice s acceptedResourceTypes then inr s
  else inl (ErrAclUnknownEnum "resource type" s).

(** Modelled from the spec: [stringToAclPatternType], as
    [stringToAclResourceType]. *)
Definition stringToAclPatternType (s : string) : error + string :=
  if stringInSlice s acceptedPatternTypes then inr s
  else inl (ErrAclUnknownEnum "pattern type" s).

(** Modelled from the spec: [stringToAclOperation], as
    [stringToAclResourceType]. *)
Definition stringToAclOperation (s : string) : error + string :=
  if stringInSlice s acceptedOperations then inr s
  else inl (ErrAclUnknownEnum "operation" s).

(** Modelled from the spec: [stringToAclPermission], as
    [stringToAclResourceType]. *)
Definition stringToAclPermission (s : string) : error + string :=
  if stringInSlice s acceptedPermissions then inr s
  else inl (ErrAclUnknownEnum "permission" s).

(** The attributes of [kafkaAclResource]'s schema; the two blocks as for the
    topic. *)
Record AclAttrs := mkAclAttrs {
  a_kafka_cluster_id : string;
  a_resource_type : string;
  a_resource_name : string;
  a_pattern_type : string;
  a_principal : string;
  a_host : string;
  a_operation : string;
  a_permission : string;
  a_rest_endpoint : string;
  a_credentials_key : string;
  a_credentials_secret : string;
}.

#[global] Instance AclAttrs_eq_dec : EqDecision AclAttrs.
Proof. solve_decision. Defined.

#[global] Instance AclSchema : Schema AclAttrs := {|
  schema_keys := [paramKafkaCluster; paramResourceType; paramResourceName;
                  paramPatternType; paramPrincipal; paramHost; paramOperation;
                  paramPermission; paramRestEndpoint; paramCredentials];
  attr_differs key old new :=
    match key with
    | paramKafkaCluster => bool_decide (a_kafka_cluster_id old ≠ a_kafka_cluster_id new)
    | paramResourceType => bool_decide (a_resource_type old ≠ a_resource_type new)
    | paramResourceName => bool_decide (a_resource_name old ≠ a_resource_name new)
    | paramPatternType => bool_decide (a_pattern_type old ≠ a_pattern_type new)
    | paramPrincipal => bool_decide (a_principal old ≠ a_principal new)
    | paramHost => bool_decide (a_host old ≠ a_host new)
    | paramOperation => bool_decide (a_operation old ≠ a_operation new)
    | paramPermission => bool_decide (a_permission old ≠ a_permission new)
    | paramRestEndpoint => bool_decide (a_rest_endpoint old ≠ a_rest_endpoint new)
    | paramCredentials =>
        bool_decide ((a_credentials_key old, a_credentials_secret old)
                     ≠ (a_credentials_key new, a_credentials_secret new))
    | _ => false
    end
|}.

Definition AclResourceData := ResourceData AclAttrs.

(** The attribute writes of [readAclAndSetAttributes], in its order: the
    cluster block, the six fields of the matched ACL and the principal of the
    request, the credentials, the endpoint. *)
Definition setAclAttributes (c : KafkaRestClient) (matchedAcl : AclData) (acl : Acl)
    (a : AclAttrs) : AclAttrs :=
  mkAclAttrs (clusterId c) (acl_ResourceType matchedAcl) (acl_ResourceName matchedAcl)
    (acl_PatternType matchedAcl) (Principal acl) (acl_Host matchedAcl)
    (acl_Operation matchedAcl) (acl_Permission matchedAcl) (restEndpoint c)
    (clusterApiKey c) (clusterApiSecret c).

Definition extractAcl (d : AclResourceData) : error + Acl :=
  match stringToAclResourceType (a_resource_type (rd_attrs d)) with
  | inl err => inl err
  | inr resourceType =>
  match stringToAclPatternType (a_pattern_type (rd_attrs d)) with
  | inl err => inl err
  | inr patternType =>
  match stringToAclOperation (a_operation (rd_attrs d)) with
  | inl err => inl err
  | inr operation =>
  match stringToAclPermission (a_permission (rd_attrs d)) with
  | inl err => inl err
  | inr permission =>
      inr (mkAcl resourceType (a_resource_name (rd_attrs d)) patternType
             (a_principal (rd_attrs d)) (a_host (rd_attrs d)) operation permission)
  end end end end.

Definition serializeAcl (acl : Acl) : string :=
  GoStrings.Join [ResourceType acl; ResourceName acl; PatternType acl; Principal acl;
                  Host acl; Operation acl; Permission acl] "#".

(** [createKafkaAclId]: the cluster ID, [/], and the seven fields joined by
    [#] ([serializeAcl] names the joined part). *)
Definition createKafkaAclId (clusterId : string) (acl : Acl) : string :=
  clusterId +:+ "/" +:+ serializeAcl acl.

Definition deserializeAcl (serializedAcl : string) : error + Acl :=
  let parts := GoStrings.Split serializedAcl "#"%char in
  if bool_decide (length parts ≠ 7%nat) then inl ErrAclDeserializeFormat
  else
    match stringToAclResourceType (nth 0 parts "") with
    | inl err => inl err
    | inr resourceType =>
    match stringToAclPatternType (nth 2 parts "") with
    | inl err => inl err
    | inr patternType =>
    match stringToAclOperation (nth 5 parts "") with
    | inl err => inl err
    | inr operation =>
    match stringToAclPermission (nth 6 parts "") with
    | inl err => inl err
    | inr permission =>
        inr (mkAcl resourceType (nth 1 parts "") patternType (nth 3 parts "")
               (nth 4 parts "") operation permission)
    end end end end.

(** The [opts] of [readAclAndSetAttributes]: the fields of the ACL, with the
    principal in its integer form. *)
Definition getAclsOpts (acl : Acl) (principalWithIntegerId : string) : GetKafkaV3AclsOpts :=
  mkGetKafkaV3AclsOpts (ResourceType acl) (ResourceName acl) (PatternType acl)
    principalWithIntegerId (Host acl) (Operation acl) (Permission acl).

(** The client an ACL operation builds from the attributes of [d]. *)
Definition aclClient (d : AclResourceData) : KafkaRestClient :=
  CreateKafkaRestClient (a_rest_endpoint (rd_attrs d)) (a_kafka_cluster_id (rd_attrs d))
    (a_credentials_key (rd_attrs d)) (a_credentials_secret (rd_attrs d)).

Section AclOperations.
Context {W : Type} `{KafkaRest W}.

Definition readAclAndSetAttributes (d : AclResourceData) (c : KafkaRestClient) (acl : Acl)
  : M W (option error * AclResourceData) :=
  resolved ← principalWithResourceIdToPrincipalWithIntegerId (Principal acl);
  match resolved with
  | inl err => mret (Some err, d)
  | inr principalWithIntegerId =>
      let opts := getAclsOpts acl principalWithIntegerId in
      remoteAcls ← executeKafkaAclRead c opts;
      match remoteAcls with
      | ApiErr resp err =>
          let isResourceNotFound := ResponseHasExpectedStatusCode resp StatusNotFound in
          if isResourceNotFound && negb (IsNewResource d)
          then mret (None, SetId "" d)
          else mret (Some err, d)
      | ApiOk data =>
          match data with
          | [] => mret (Some (ErrAclNoneMatched (Id d)), d)
          | [matchedAcl] =>
              let d := Set_ (setAclAttributes c matchedAcl acl) d in
              mret (None, SetId (createKafkaAclId (clusterId c) acl) d)
          | _ :: _ :: _ => mret (Some (ErrAclMultipleMatched (Id d)), d)
          end
      end
  end.

Definition kafkaAclRead (d : AclResourceData) : M W (Diagnostics * AclResourceData) :=
  let kafkaRestClient := aclClient d in
  match extractAcl d with
  | inl err => mret (diag_FromErr (createDescriptiveError (Some err)), d)
  | inr acl =>
      if negb (GoStrings.HasPrefix (Principal acl) "User:sa-"
               || GoStrings.HasPrefix (Principal acl) "User:u-")
      then mret ([], SetId "" d)
      else
        '(err, d') ← readAclAndSetAttributes d kafkaRestClient acl;
        mret (diag_FromErr (createDescriptiveError err), d')
  end.

(** [kafkaAclImport]; [envCheck] as for [kafkaTopicImport]. *)
Definition kafkaAclImport (envCheck : error + KafkaImportEnvVars) (d : AclResourceData)
  : M W (option error * AclResourceData) :=
  match envCheck with
  | inl err => mret (Some err, d)
  | inr kafkaImportEnvVars =>
      let clusterIdAndSerializedAcl := Id d in
      let parts := GoStrings.Split clusterIdAndSerializedAcl "/"%char in
      if bool_decide (length parts ≠ 2%nat)
      then mret (Some ErrAclImportFormat, d)
      else
        let clusterId := nth 0 parts "" in
        let serializedAcl := nth 1 parts "" in
        match deserializeAcl serializedAcl with
        | inl err => mret (Some err, d)
        | inr acl =>
            let kafkaRestClient :=
              CreateKafkaRestClient (kafkaHttpEndpoint kafkaImportEnvVars) clusterId
                (kafkaApiKey kafkaImportEnvVars) (kafkaApiSecret kafkaImportEnvVars) in
            let d := MarkNewResource d in
            '(err, d') ← readAclAndSetAttributes d kafkaRestClient acl;
            match err with
            | Some e => mret (Some (ErrAclImport (Id d') (createDescriptiveError (Some e))), d')
            | None => mret (None, d')
            end
        end
  end.

Definition kafkaAclUpdate (d : AclResourceData) : M W (Diagnostics * AclResourceData) :=
  if HasChangesExcept d [paramCredentials]
  then mret (diag_Errorf (ErrAclOnlyCredentialsUpdatable (Id d)), d)
  else kafkaAclRead d.

End AclOperations.

(** ** A remote side to run the operations against *)

(** A small Kafka cluster: its topics with their partition counts and
    settings, its ACLs (or no ACL service at all, which answers 404), the
    principals the control plane knows, and whether a settings update takes
    effect before the provider reads the settings back. *)
Record SimRemote := mkSimRemote {
  sim_topics : gmap string (Z * list TopicConfigData);
  sim_acls : option (list AclData);
  sim_principals : gmap string string;
  sim_applies_updates : bool;
}.

Definition notFound {A} : ApiResult A :=
  ApiErr (Some (mkResponse StatusNotFound)) (RemoteError "404 Not Found").

Definition simAlter (configs : list TopicConfigData) (change : AlterConfigBatchRequestDataData)
  : list TopicConfigData :=
  filter (λ cfg, cfg_Name cfg ≠ Name change) configs
  ++ [mkTopicConfigData (Name change) (Value change) CONFIGSOURCE_DYNAMIC_TOPIC_CONFIG].

Definition simAclMatches (opts : GetKafkaV3AclsOpts) (acl : AclData) : bool :=
  bool_decide (acl = mkAclData (opt_ResourceType opts) (opt_ResourceName opts)
                       (opt_PatternType opts) (opt_Principal opts) (opt_Host opts)
                       (opt_Operation opts) (opt_Permission opts)).

#[global] Instance SimKafkaRest : KafkaRest SimRemote := {|
  GetKafkaV3Topic c topicName r :=
    match sim_topics r !! topicName with
    | Some (partitions, _) => (ApiOk (mkTopicData topicName partitions), r)
    | None => (notFound, r)
    end;
  ListKafkaV3TopicConfigs c topicName r :=
    match sim_topics r !! topicName with
    | Some (_, configs) => (ApiOk configs, r)
    | None => (notFound, r)
    end;
  UpdateKafkaV3TopicConfigBatch c topicName data r :=
    match sim_topics r !! topicName with
    | Some (partitions, configs) =>
        if sim_applies_updates r
        then (ApiOk (),
              mkSimRemote (<[topicName := (partitions, foldl simAlter configs data)]> (sim_topics r))
                (sim_acls r) (sim_principals r) (sim_applies_updates r))
        else (ApiOk (), r)
    | None => (notFound, r)
    end;
  GetKafkaV3Acls c opts r :=
    match sim_acls r with
    | Some acls => (ApiOk (filter (λ acl, simAclMatches opts acl = true) acls), r)
    | None => (notFound, r)
    end;
  LookupPrincipalIntegerId principal r :=
    match sim_principals r !! principal with
    | Some integerId => (inr integerId, r)
    | None => (inl (RemoteError "unknown principal"), r)
    end;
|}.

(** A [range] order: the order of [map_to_list]. *)
#[global] Instance listed_range : MapRange := {|
  range := map_to_list;
  range_perm m := reflexivity (map_to_list m);
|}.

Definition dynamic (name value : string) : TopicConfigData :=
  mkTopicConfigData name (Some value) CONFIGSOURCE_DYNAMIC_TOPIC_CONFIG.

(** The topic [orders] of cluster [lkc-1], with one setting of its own and one
    cluster default. *)
Definition ordersConfigs : list TopicConfigData :=
  [dynamic "retention.ms" "1";
   mkTopicConfigData "cleanup.policy" (Some "delete") "DEFAULT_CONFIG"].

Definition ordersRemote (applies : bool) : SimRemote :=
  mkSimRemote {[ "orders" := (6, ordersConfigs) ]} (Some []) ∅ applies.

Definition ordersAttrs (config : gmap string string) : TopicAttrs :=
  mkTopicAttrs "lkc-1" "orders" 6 "https://pkc-1:443" config "key" "secret".

Definition ordersId : string := createKafkaTopicId "lkc-1" "orders".

(** An update of [retention.ms] from 1 to 2. *)
Definition retentionUpdate : TopicResourceData :=
  mkResourceData ordersId false
    (ordersAttrs {[ "retention.ms" := "1" ]}) (ordersAttrs {[ "retention.ms" := "2" ]}).

(** An update that drops [retention.ms]. *)
Definition retentionRemoval : TopicResourceData :=
  mkResourceData ordersId false
    (ordersAttrs {[ "retention.ms" := "1" ]}) (ordersAttrs ∅).

(** An update that sets the read-only [cleanup.policy]. *)
Definition cleanupPolicyUpdate : TopicResourceData :=
  mkResourceData ordersId false
    (ordersAttrs {[ "retention.ms" := "1" ]})
    (ordersAttrs {[ "retention.ms" := "1"; "cleanup.policy" := "compact" ]}).

(** An update that changes the partition count. *)
Definition partitionsUpdate : TopicResourceData :=
  mkResourceData ordersId false
    (ordersAttrs {[ "retention.ms" := "1" ]})
    (mkTopicAttrs "lkc-1" "orders" 12 "https://pkc-1:443" {[ "retention.ms" := "1" ]}
       "key" "secret").

(** The state of [orders], and of a topic [gone] that the cluster lacks. *)
Definition ordersState (isNew : bool) : TopicResourceData :=
  mkResourceData ordersId isNew
    (ordersAttrs {[ "retention.ms" := "1" ]}) (ordersAttrs {[ "retention.ms" := "1" ]}).

Definition goneAttrs : TopicAttrs :=
  mkTopicAttrs "lkc-1" "gone" 6 "https://pkc-1:443" ∅ "key" "secret".

Definition goneState (isNew : bool) : TopicResourceData :=
  mkResourceData (createKafkaTopicId "lkc-1" "gone") isNew goneAttrs goneAttrs.

Definition startWorld (r : SimRemote) : World SimRemote := mkWorld r [].

(** An ACL of the cluster, as the provider names it and as the server stores
    it (with the integer ID of the principal). *)
Definition readOrdersAcl : Acl :=
  mkAcl "TOPIC" "orders" "LITERAL" "User:sa-abc123" "*" "READ" "ALLOW".

Definition readOrdersAclData : AclData :=
  mkAclData "TOPIC" "orders" "LITERAL" "User:1234" "*" "READ" "ALLOW".

Definition aclRemote (acls : option (list AclData)) : SimRemote :=
  mkSimRemote ∅ acls {[ "User:sa-abc123" := "User:1234" ]} true.

Definition aclAttrs (principal : string) : AclAttrs :=
  mkAclAttrs "lkc-1" "TOPIC" "orders" "LITERAL" principal "*" "READ" "ALLOW"
    "https://pkc-1:443" "key" "secret".

Definition aclState (principal : string) (isNew : bool) : AclResourceData :=
  mkResourceData (createKafkaAclId "lkc-1" readOrdersAcl) isNew
    (aclAttrs principal) (aclAttrs principal).

(** An ACL update that changes the host. *)
Definition aclHostUpdate : AclResourceData :=
  mkResourceData (createKafkaAclId "lkc-1" readOrdersAcl) false
    (aclAttrs "User:sa-abc123")
    (mkAclAttrs "lkc-1" "TOPIC" "orders" "LITERAL" "User:sa-abc123" "10.0.0.1" "READ" "ALLOW"
       "https://pkc-1:443" "key" "secret").

Definition importEnv : KafkaImportEnvVars :=
  mkKafkaImportEnvVars "key" "secret" "https://pkc-1:443".

(** ** Creating topics and ACLs, deleting ACLs *)

(** [kafkarestv3.CreateTopicRequestDataConfigs]: [Value] is a [*string]. *)
Record CreateTopicRequestDataConfigs := mkCreateTopicConfig {
  create_Name : string;
  create_Value : option string;
}.

(** [kafkarestv3.CreateTopicRequestData], the fields the provider sets;
    [PartitionsCount] is an [int32]. *)
Record CreateTopicRequestData := mkCreateTopicRequestData {
  req_TopicName : string;
  req_PartitionsCount : Z;
  req_Configs : list CreateTopicRequestDataConfigs;
}.

(** [kafkarestv3.CreateAclRequestData]. *)
Record CreateAclRequestData := mkCreateAclRequestData {
  creq_ResourceType : string;
  creq_ResourceName : string;
  creq_PatternType : string;
  creq_Principal : string;
  creq_Host : string;
  creq_Operation : string;
  creq_Permission : string;
}.

(** [kafkarestv3.DeleteKafkaV3AclsOpts]: seven optional filters, all of which
    the provider sets. *)
Record DeleteKafkaV3AclsOpts := mkDeleteKafkaV3AclsOpts {
  del_ResourceType : string;
  del_ResourceName : string;
  del_PatternType : string;
  del_Principal : string;
  del_Host : string;
  del_Operation : string;
  del_Permission : string;
}.

(** The Go conversion [int32(n)] of an [int]: the low 32 bits of [n], read as
    a signed number. *)
Definition int32 (n : Z) : Z := (n + 2 ^ 31) mod 2 ^ 32 - 2 ^ 31.

(** The loop of [extractConfigs]: entry number [i] of the iteration goes to
    index [i] of [configResult]. *)
Fixpoint fillConfigs (entries : list (string * string)) (i : nat)
    (configResult : list CreateTopicRequestDataConfigs)
  : list CreateTopicRequestDataConfigs :=
  match entries with
  | [] => configResult
  | (name, value) :: rest =>
      fillConfigs rest (S i) (<[i := mkCreateTopicConfig name (Some value)]> configResult)
  end.

(** [extractConfigs]: a slice of [len(configs)] zero values, filled by the
    loop over the map. *)
Definition extractConfigs `{MapRange} (configs : gmap string string)
  : list CreateTopicRequestDataConfigs :=
  fillConfigs (range configs) 0 (replicate (size configs) (mkCreateTopicConfig "" None)).

(** The remote calls that write. *)
Class KafkaRestWrites (W : Type) := {
  CreateKafkaV3Topic :
    KafkaRestClient → CreateTopicRequestData → W → ApiResult TopicData * W;
  CreateKafkaV3Acls : KafkaRestClient → CreateAclRequestData → W → ApiResult unit * W;
  DeleteKafkaV3Acls :
    KafkaRestClient → DeleteKafkaV3AclsOpts → W → ApiResult (list AclData) * W;
}.

(** One entry of the journal of the writes. *)
Inductive WriteCall : Type :=
  | WriteCreateTopic (c : KafkaRestClient) (requestData : CreateTopicRequestData)
  | WriteCreateAcls (c : KafkaRestClient) (requestData : CreateAclRequestData)
  | WriteDeleteAcls (c : KafkaRestClient) (opts : DeleteKafkaV3AclsOpts).

(** A remote side with the journal of the writes sent to it, oldest first.
    The operations that write run in a [World (Journaled W)]: [calls] records
    their other calls as before, [writes] their writes. *)
Record Journaled (W : Type) := mkJournaled {
  served : W;
  writes : list WriteCall;
}.
Arguments mkJournaled {W}.
Arguments served {W}.
Arguments writes {W}.

(** The calls that do not write pass the journal on. *)
Definition passJournal {W A} (method : W → A * W) (j : Journaled W) : A * Journaled W :=
  let '(a, r) := method (served j) in (a, mkJournaled r (writes j)).

#[global] Instance JournaledKafkaRest {W : Type} `{KafkaRest W} : KafkaRest (Journaled W) := {|
  GetKafkaV3Topic c topicName := passJournal (GetKafkaV3Topic c topicName);
  ListKafkaV3TopicConfigs c topicName := passJournal (ListKafkaV3TopicConfigs c topicName);
  UpdateKafkaV3TopicConfigBatch c topicName data :=
    passJournal (UpdateKafkaV3TopicConfigBatch c topicName data);
  GetKafkaV3Acls c opts := passJournal (GetKafkaV3Acls c opts);
  LookupPrincipalIntegerId principal := passJournal (LookupPrincipalIntegerId principal);
|}.

(** The diagnostics of the operations that write: the three errors they
    build themselves, and the diagnostics they pass on. *)
Inductive WriteDiagnostic : Type :=
  | ErrTopicCreate (err : option error)
  | ErrAclCreate (err : option error)
  | ErrAclDelete (id : string) (err : option error)
  | Passed (e : error).

Section WriteOperations.
Context {W : Type} `{KafkaRest W} `{KafkaRestWrites W} `{MapRange}.

(** A remote call that writes: the method runs on the remote state and is
    entered in the journal. *)
Definition remote_write {A} (entry : WriteCall) (method : W → A * W) : M (Journaled W) A :=
  λ w, let '(a, r) := method (served (remote w)) in
       (a, mkWorld (mkJournaled r (writes (remote w) ++ [entry])) (calls w)).

Definition executeKafkaTopicCreate (c : KafkaRestClient) (requestData : CreateTopicRequestData)
  : M (Journaled W) (ApiResult TopicData) :=
  remote_write (WriteCreateTopic c requestData) (CreateKafkaV3Topic c requestData).

Definition executeKafkaAclCreate (c : KafkaRestClient) (requestData : CreateAclRequestData)
  : M (Journaled W) (ApiResult unit) :=
  remote_write (WriteCreateAcls c requestData) (CreateKafkaV3Acls c requestData).

Definition kafkaTopicCreate (d : TopicResourceData)
  : M (Journaled W) (list WriteDiagnostic * TopicResourceData) :=
  let kafkaRestClient := topicClient d in
  let topicName := t_topic_name (rd_attrs d) in
  let createTopicRequest :=
    mkCreateTopicRequestData topicName (int32 (t_partitions_count (rd_attrs d)))
      (extractConfigs (t_config (rd_attrs d))) in
  created ← executeKafkaTopicCreate kafkaRestClient createTopicRequest;
  match created with
  | ApiErr _ err => mret ([ErrTopicCreate (createDescriptiveError (Some err))], d)
  | ApiOk createdKafkaTopic =>
      let kafkaTopicId := createKafkaTopicId (clusterId kafkaRestClient) topicName in
      let d := SetId kafkaTopicId d in
      '(diags, d') ← kafkaTopicRead d;
      mret (Passed <$> diags, d')
  end.

Definition kafkaAclCreate (d : AclResourceData)
  : M (Journaled W) (list WriteDiagnostic * AclResourceData) :=
  let kafkaRestClient := aclClient d in
  match extractAcl d with
  | inl err => mret (Passed <$> diag_FromErr (createDescriptiveError (Some err)), d)
  | inr acl =>
      resolved ← principalWithResourceIdToPrincipalWithIntegerId (Principal acl);
      match resolved with
      | inl err => mret (Passed <$> diag_FromErr (createDescriptiveError (Some err)), d)
      | inr principalWithIntegerId =>
          let createAclRequest :=
            mkCreateAclRequestData (ResourceType acl) (ResourceName acl) (PatternType acl)
              principalWithIntegerId (Host acl) (Operation acl) (Permission acl) in
          created ← executeKafkaAclCreate kafkaRestClient createAclRequest;
          match created with
          | ApiErr _ err => mret ([ErrAclCreate (createDescriptiveError (Some err))], d)
          | ApiOk _ =>
              let kafkaAclId := createKafkaAclId (clusterId kafkaRestClient) acl in
              let d := SetId kafkaAclId d in
              '(diags, d') ← kafkaAclRead d;
              mret (Passed <$> diags, d')
          end
      end
  end.

Definition kafkaAclDelete (d : AclResourceData) : M (Journaled W) (list WriteDiagnostic) :=
  let kafkaRestClient := aclClient d in
  match extractAcl d with
  | inl err => mret (Passed <$> diag_FromErr (createDescriptiveError (Some err)))
  | inr acl =>
      resolved ← principalWithResourceIdToPrincipalWithIntegerId (Principal acl);
      match resolved with
      | inl err => mret (Passed <$> diag_FromErr (createDescriptiveError (Some err)))
      | inr principalWithIntegerId =>
          let opts :=
            mkDeleteKafkaV3AclsOpts (ResourceType acl) (ResourceName acl) (PatternType acl)
              principalWithIntegerId (Host acl) (Operation acl) (Permission acl) in
          deleted ← remote_write (WriteDeleteAcls kafkaRestClient opts)
                      (DeleteKafkaV3Acls kafkaRestClient opts);
          match deleted with
          | ApiErr _ err => mret [ErrAclDelete (Id d) (createDescriptiveError (Some err))]
          | ApiOk _ => mret []
          end
      end
  end.

End WriteOperations.

(** The writes of the small cluster: a created topic has the requested
    settings as its own, a created ACL is stored as requested, a delete
    removes and returns the ACLs equal to its filters. *)
Definition simCreatedConfigs (configs : list CreateTopicRequestDataConfigs)
  : list TopicConfigData :=
  (λ cfg, mkTopicConfigData (create_Name cfg) (create_Value cfg)
            CONFIGSOURCE_DYNAMIC_TOPIC_CONFIG) <$> configs.

Definition simDeleteMatches (opts : DeleteKafkaV3AclsOpts) (acl : AclData) : bool :=
  bool_decide (acl = mkAclData (del_ResourceType opts) (del_ResourceName opts)
                       (del_PatternType opts) (del_Principal opts) (del_Host opts)
                       (del_Operation opts) (del_Permission opts)).

#[global] Instance SimKafkaRestWrites : KafkaRestWrites SimRemote := {|
  CreateKafkaV3Topic c requestData r :=
    match sim_topics r !! req_TopicName requestData with
    | Some _ =>
        (ApiErr (Some (mkResponse 400)) (RemoteError "400 Bad Request: topic exists"), r)
    | None =>
        (ApiOk (mkTopicData (req_TopicName requestData) (req_PartitionsCount requestData)),
         mkSimRemote
           (<[req_TopicName requestData :=
                (req_PartitionsCount requestData, simCreatedConfigs (req_Configs requestData))]>
              (sim_topics r))
           (sim_acls r) (sim_principals r) (sim_applies_updates r))
    end;
  CreateKafkaV3Acls c requestData r :=
    match sim_acls r with
    | Some acls =>
        (ApiOk (),
         mkSimRemote (sim_topics r)
           (Some (acls ++ [mkAclData (creq_ResourceType requestData)
                             (creq_ResourceName requestData) (creq_PatternType requestData)
                             (creq_Principal requestData) (creq_Host requestData)
                             (creq_Operation requestData) (creq_Permission requestData)]))
           (sim_principals r) (sim_applies_updates r))
    | None => (notFound, r)
    end;
  DeleteKafkaV3Acls c opts r :=
    match sim_acls r with
    | Some acls =>
        (ApiOk (filter (λ acl, simDeleteMatches opts acl = true) acls),
         mkSimRemote (sim_topics r)
           (Some (filter (λ acl, simDeleteMatches opts acl ≠ true) acls))
           (sim_principals r) (sim_applies_updates r))
    | None => (notFound, r)
    end;
|}.

Definition startJournal (r : SimRemote) : World (Journaled SimRemote) :=
  mkWorld (mkJournaled r []) [].

(** A remote side on which topics can be fetched and updated while the list
    of their settings answers 404, and which resolves no principal. *)
Inductive SettingsOutage : Type := settingsOutage.

#[global] Instance SettingsOutageRest : KafkaRest SettingsOutage := {|
  GetKafkaV3Topic c topicName r := (ApiOk (mkTopicData topicName 6), r);
  ListKafkaV3TopicConfigs c topicName r := (notFound, r);
  UpdateKafkaV3TopicConfigBatch c topicName data r := (ApiOk (), r);
  GetKafkaV3Acls c opts r := (ApiOk [], r);
  LookupPrincipalIntegerId principal r := (inl (RemoteError "control plane unavailable"), r);
|}.

(** The topic [orders] with two entries for [retention.ms]. *)
Definition repeatedConfigs : list TopicConfigData :=
  [dynamic "retention.ms" "1"; dynamic "retention.ms" "2";
   mkTopicConfigData "retention.ms" (Some "3") "DEFAULT_CONFIG"].

Definition repeatedRemote : SimRemote :=
  mkSimRemote {[ "orders" := (6, repeatedConfigs) ]} (Some []) ∅ true.

(** An update of the credentials alone. *)
Definition credentialsUpdate : TopicResourceData :=
  mkResourceData ordersId false
    (ordersAttrs {[ "retention.ms" := "1" ]})
    (mkTopicAttrs "lkc-1" "orders" 6 "https://pkc-1:443" {[ "retention.ms" := "1" ]}
       "new-key" "new-secret").

(** An update of [retention.ms] on the topic [gone]. *)
Definition goneRetentionUpdate : TopicResourceData :=
  mkResourceData (createKafkaTopicId "lkc-1" "gone") false goneAttrs
    (mkTopicAttrs "lkc-1" "gone" 6 "https://pkc-1:443" {[ "retention.ms" := "2" ]}
       "key" "secret").

(** A topic [fresh] to create, with one setting. *)
Definition freshAttrs (partitions : Z) : TopicAttrs :=
  mkTopicAttrs "lkc-1" "fresh" partitions "https://pkc-1:443" {[ "retention.ms" := "5" ]}
    "key" "secret".

Definition freshTopic (partitions : Z) : TopicResourceData :=
  mkResourceData "" true (freshAttrs partitions) (freshAttrs partitions).

(** An ACL to create: no identifier yet, marked new. *)
Definition freshAcl (principal : string) : AclResourceData :=
  mkResourceData "" true (aclAttrs principal) (aclAttrs principal).

(** * Properties *)

(** ** Splitting and joining identifiers *)

Section SplitLemmas.
Import GoStrings.

Lemma contains_byte_cons_false sep c s :
  contains_byte sep (String c s) = false →
  Ascii.eqb c sep = false ∧ contains_byte sep s = false.
Proof. simpl. intros Hc. by apply orb_false_elim in Hc. Qed.

Lemma Split_no_sep sep s : contains_byte sep s = false → Split s sep = [s].
Proof.
  induction s as [|c s IH]; [done|].
  intros [Hc Hs]%contains_byte_cons_false. simpl. by rewrite Hc, (IH Hs).
Qed.

Lemma Split_sep_app sep s t :
  contains_byte sep s = false →
  Split (s +:+ String sep t) sep = s :: Split t sep.
Proof.
  induction s as [|c s IH].
  - intros _. simpl. by rewrite Ascii.eqb_refl.
  - intros [Hc Hs]%contains_byte_cons_false. simpl. by rewrite Hc, (IH Hs).
Qed.

Lemma append_byte sep (t : string) : String sep "" +:+ t = String sep t.
Proof. reflexivity. Qed.

Lemma Split_serializeAcl acl :
  contains_byte "#" (ResourceType acl) = false →
  contains_byte "#" (ResourceName acl) = false →
  contains_byte "#" (PatternType acl) = false →
  contains_byte "#" (Principal acl) = false →
  contains_byte "#" (Host acl) = false →
  contains_byte "#" (Operation acl) = false →
  contains_byte "#" (Permission acl) = false →
  Split (serializeAcl acl) "#" =
    [ResourceType acl; ResourceName acl; PatternType acl; Principal acl;
     Host acl; Operation acl; Permission acl].
Proof.
  intros H1 H2 H3 H4 H5 H6 H7. unfold serializeAcl. cbn [Join]. rewrite !append_byte.
  rewrite (Split_sep_app _ _ _ H1), (Split_sep_app _ _ _ H2), (Split_sep_app _ _ _ H3),
    (Split_sep_app _ _ _ H4), (Split_sep_app _ _ _ H5), (Split_sep_app _ _ _ H6).
  by rewrite (Split_no_sep _ _ H7).
Qed.

End SplitLemmas.

Lemma stringInSlice_elem target slice : target ∈ slice → stringInSlice target slice = true.
Proof. intros Hin. unfold stringInSlice. by apply bool_decide_eq_true. Qed.

(** C6, as the code has it. The composite topic identifier splits back into
    its cluster ID and topic name when neither holds a [/]; and once the
    import environment variables are there, importing an identifier that does
    not split into exactly two parts fails with the format error, with no
    remote call and [d] as it was. *)
Theorem topic_id_round_trip_and_import_format :
  (∀ clusterId topicName : string,
     GoStrings.contains_byte "/" clusterId = false →
     GoStrings.contains_byte "/" topicName = false →
     GoStrings.Split (createKafkaTopicId clusterId topicName) "/" = [clusterId; topicName])
  ∧ (∀ (W : Type) (S : KafkaRest W) (env : KafkaImportEnvVars)
       (d : TopicResourceData) (w : World W),
       length (GoStrings.Split (Id d) "/") ≠ 2%nat →
       kafkaTopicImport (inr env) d w = ((Some ErrTopicImportFormat, d), w)).
Proof.
  split.
  - intros clusterId topicName Hc Ht. unfold createKafkaTopicId.
    rewrite append_byte.
    by rewrite (Split_sep_app _ _ _ Hc), (Split_no_sep _ _ Ht).
  - intros W S env d w Hlen. unfold kafkaTopicImport.
    by rewrite (bool_decide_eq_true_2 _ Hlen).
Qed.

Lemma topic_id_round_trip_and_import_format_witness :
  GoStrings.Split (createKafkaTopicId "lkc-1" "orders") "/" = ["lkc-1"; "orders"]
  ∧ kafkaTopicImport (inr importEnv) (SetId "lkc-1" (ordersState false))
      (startWorld (ordersRemote true))
    = ((Some ErrTopicImportFormat, SetId "lkc-1" (ordersState false)),
       startWorld (ordersRemote true)).
Proof.
  split.
  - apply (proj1 topic_id_round_trip_and_import_format); reflexivity.
  - apply (proj2 topic_id_round_trip_and_import_format). vm_compute. lia.
Defined.

(** C6 as stated fails where the import environment variables are missing:
    the identifier [lkc-1] does not split into two parts, yet the import
    fails with the error of the environment check, not the format error. *)
Lemma topic_import_format_counterexample :
  length (GoStrings.Split (Id (SetId "lkc-1" (ordersState false))) "/") ≠ 2%nat
  ∧ fst (fst (kafkaTopicImport (inl (EnvironmentError "IMPORT_KAFKA_API_KEY is not set"))
                (SetId "lkc-1" (ordersState false)) (startWorld (ordersRemote true))))
    = Some (EnvironmentError "IMPORT_KAFKA_API_KEY is not set")
  ∧ fst (fst (kafkaTopicImport (inl (EnvironmentError "IMPORT_KAFKA_API_KEY is not set"))
                (SetId "lkc-1" (ordersState false)) (startWorld (ordersRemote true))))
    ≠ Some ErrTopicImportFormat.
Proof. split; [vm_compute; lia|]. split; [reflexivity|discriminate]. Qed.

(** C7. Deserializing the [#]-joined seven-tuple of an ACL whose fields hold
    no [#] and whose four enumeration fields are accepted values gives the
    ACL back; a string that does not split on [#] into exactly seven parts
    fails with the format error. *)
Theorem acl_serialization_round_trip :
  (∀ acl : Acl,
     GoStrings.contains_byte "#" (ResourceType acl) = false →
     GoStrings.contains_byte "#" (ResourceName acl) = false →
     GoStrings.contains_byte "#" (PatternType acl) = false →
     GoStrings.contains_byte "#" (Principal acl) = false →
     GoStrings.contains_byte "#" (Host acl) = false →
     GoStrings.contains_byte "#" (Operation acl) = false →
     GoStrings.contains_byte "#" (Permission acl) = false →
     ResourceType acl ∈ acceptedResourceTypes →
     PatternType acl ∈ acceptedPatternTypes →
     Operation acl ∈ acceptedOperations →
     Permission acl ∈ acceptedPermissions →
     ∀ clusterId : string, ∃ joined : string,
       createKafkaAclId clusterId acl = clusterId +:+ "/" +:+ joined
       ∧ joined = serializeAcl acl
       ∧ deserializeAcl joined = inr acl)
  ∧ (∀ serializedAcl : string,
       length (GoStrings.Split serializedAcl "#") ≠ 7%nat →
       deserializeAcl serializedAcl = inl ErrAclDeserializeFormat).
Proof.
  split.
  - intros acl H1 H2 H3 H4 H5 H6 H7 Hr Hp Ho Hm clusterId.
    exists (serializeAcl acl). split; [done|]. split; [done|].
    unfold deserializeAcl. rewrite (Split_serializeAcl acl H1 H2 H3 H4 H5 H6 H7).
    rewrite bool_decide_eq_false_2 by (simpl; lia). cbn [nth].
    unfold stringToAclResourceType, stringToAclPatternType, stringToAclOperation,
      stringToAclPermission.
    rewrite !stringInSlice_elem by done. by destruct acl.
  - intros s Hlen. unfold deserializeAcl. by rewrite (bool_decide_eq_true_2 _ Hlen).
Qed.

Lemma acl_serialization_round_trip_witness :
  (∃ joined : string,
     createKafkaAclId "lkc-1" readOrdersAcl = "lkc-1" +:+ "/" +:+ joined
     ∧ joined = serializeAcl readOrdersAcl
     ∧ deserializeAcl joined = inr readOrdersAcl)
  ∧ deserializeAcl "TOPIC#orders#LITERAL" = inl ErrAclDeserializeFormat.
Proof.
  split.
  - apply (proj1 acl_serialization_round_trip readOrdersAcl);
      first [reflexivity | apply (bool_decide_unpack _); vm_compute; exact I].
  - apply (proj2 acl_serialization_round_trip). vm_compute. lia.
Defined.

(** ** The loops of the topic settings update *)

Lemma isTopicSettingValueUpdated_true old name value :
  isTopicSettingValueUpdated old name value = true ↔ old !! name ≠ Some value.
Proof.
  unfold isTopicSettingValueUpdated. destruct (old !! name) as [v|]; simpl.
  - case_bool_decide; simpl; split; intros; congruence.
  - split; [discriminate|done].
Qed.

Lemma isTopicSettingValueUpdated_false old name value :
  isTopicSettingValueUpdated old name value = false ↔ old !! name = Some value.
Proof.
  rewrite <- not_true_iff_false, isTopicSettingValueUpdated_true.
  destruct (decide (old !! name = Some value)); naive_solver.
Qed.

Lemma verifyNoTopicSettingRemoved_found id entries new name value :
  (name, value) ∈ entries → new !! name = None →
  verifyNoTopicSettingRemoved id entries new = Some [ErrTopicSettingRemoved id].
Proof.
  induction entries as [|[k v] entries IH]; intros Hin Hnone.
  - by apply elem_of_nil in Hin.
  - simpl. destruct (new !! k) eqn:Hk; [|done].
    apply elem_of_cons in Hin as [Heq|Hin]; [|by apply IH].
    injection Heq as -> ->. congruence.
Qed.

Lemma verifyNoTopicSettingRemoved_kept id entries new :
  (∀ name value, (name, value) ∈ entries → is_Some (new !! name)) →
  verifyNoTopicSettingRemoved id entries new = None.
Proof.
  induction entries as [|[k v] entries IH]; intros Hall; [done|].
  simpl. destruct (Hall k v) as [x ->]; [left|].
  apply IH. intros name value Hin. apply (Hall name value). by right.
Qed.

Lemma changedSettings_cons old kv entries :
  changedSettings old (kv :: entries) =
    if decide (old !! kv.1 ≠ Some kv.2)
    then mkAlterConfig kv.1 (Some kv.2) :: changedSettings old entries
    else changedSettings old entries.
Proof. unfold changedSettings. rewrite filter_cons. by case_decide. Qed.

Lemma collectTopicSettingsUpdateBatch_inr id entries old acc batch :
  collectTopicSettingsUpdateBatch id entries old acc = inr batch →
  batch = acc ++ changedSettings old entries
  ∧ ∀ name value, (name, value) ∈ entries → old !! name ≠ Some value →
      name ∈ editableTopicSettings.
Proof.
  revert acc. induction entries as [|[k v] entries IH]; intros acc Hrun.
  - simpl in Hrun. injection Hrun as <-. split; [by rewrite app_nil_r|].
    intros name value Hin. by apply elem_of_nil in Hin.
  - simpl in Hrun. rewrite changedSettings_cons. simpl.
    destruct (isTopicSettingValueUpdated old k v) eqn:Hupd.
    + apply isTopicSettingValueUpdated_true in Hupd.
      unfold stringInSlice in Hrun. case_bool_decide as Hed; [|discriminate].
      apply IH in Hrun as [-> Hall]. rewrite decide_True by done.
      split; [by rewrite <- app_assoc|].
      intros name value [Heq|Hin]%elem_of_cons Hne; [|by eapply Hall].
      by injection Heq as -> ->.
    + apply isTopicSettingValueUpdated_false in Hupd.
      apply IH in Hrun as [-> Hall]. rewrite decide_False by (intros Hne; by apply Hne).
      split; [done|].
      intros name value [Heq|Hin]%elem_of_cons Hne; [|by eapply Hall].
      injection Heq as -> ->. done.
Qed.

Lemma collectTopicSettingsUpdateBatch_editable id entries old acc :
  (∀ name value, (name, value) ∈ entries → old !! name ≠ Some value →
     name ∈ editableTopicSettings) →
  collectTopicSettingsUpdateBatch id entries old acc = inr (acc ++ changedSettings old entries).
Proof.
  revert acc. induction entries as [|[k v] entries IH]; intros acc Hall.
  - simpl. by rewrite app_nil_r.
  - simpl. rewrite changedSettings_cons. simpl.
    assert (∀ name value, (name, value) ∈ entries → old !! name ≠ Some value →
              name ∈ editableTopicSettings) as Hrest.
    { intros name value Hin. apply Hall. by right. }
    destruct (isTopicSettingValueUpdated old k v) eqn:Hupd.
    + apply isTopicSettingValueUpdated_true in Hupd.
      rewrite stringInSlice_elem by (eapply Hall; [left|done]).
      rewrite decide_True by done. rewrite (IH _ Hrest). by rewrite <- app_assoc.
    + apply isTopicSettingValueUpdated_false in Hupd.
      rewrite decide_False by (intros Hne; by apply Hne). by apply IH.
Qed.

Lemma collectTopicSettingsUpdateBatch_read_only id entries old acc name value :
  (name, value) ∈ entries → old !! name ≠ Some value → name ∉ editableTopicSettings →
  ∃ readOnly : string,
    (readOnly ∉ editableTopicSettings)
    ∧ collectTopicSettingsUpdateBatch id entries old acc
      = inl [ErrTopicSettingReadOnly id readOnly].
Proof.
  revert acc. induction entries as [|[k v] entries IH]; intros acc Hin Hne Hro.
  - by apply elem_of_nil in Hin.
  - simpl. destruct (isTopicSettingValueUpdated old k v) eqn:Hupd.
    + unfold stringInSlice. case_bool_decide as Hed.
      * apply elem_of_cons in Hin as [Heq|Hin]; [|by apply IH].
        injection Heq as -> ->. done.
      * by exists k.
    + apply isTopicSettingValueUpdated_false in Hupd.
      apply elem_of_cons in Hin as [Heq|Hin]; [|by apply IH].
      injection Heq as -> ->. done.
Qed.

(** What [changedSettings] holds, for the entries of a map in any order. *)
Lemma changedSettings_spec old new entries :
  entries ≡ₚ map_to_list new →
  NoDup (changedSettings old entries)
  ∧ ∀ x, x ∈ changedSettings old entries ↔
      ∃ name value, x = mkAlterConfig name (Some value)
        ∧ new !! name = Some value ∧ old !! name ≠ Some value.
Proof.
  intros Hperm. split.
  - unfold changedSettings. apply NoDup_fmap_2.
    + intros [k1 v1] [k2 v2] Heq. simpl in Heq. by injection Heq as -> ->.
    + apply NoDup_filter. rewrite Hperm. apply NoDup_map_to_list.
  - intros x. unfold changedSettings. rewrite list_elem_of_fmap. split.
    + intros [[k v] [-> [Hne Hin]%list_elem_of_filter]]. simpl in *.
      exists k, v. split; [done|]. split; [|done].
      rewrite Hperm in Hin. by apply elem_of_map_to_list in Hin.
    + intros (k & v & -> & Hnew & Hne). exists (k, v). split; [done|].
      apply list_elem_of_filter. split; [done|].
      rewrite Hperm. by apply elem_of_map_to_list.
Qed.

(** Unfold the remote calls and the binds of an operation. *)
Ltac run_remote :=
  unfold loadTopicConfigs, executeKafkaTopicUpdate, apiGetKafkaV3Topic,
    apiListKafkaV3TopicConfigs, executeKafkaAclRead,
    principalWithResourceIdToPrincipalWithIntegerId, remote_call;
  unfold mbind, M_bind, mret, M_ret; simpl.

(** ** Changes that an update refuses *)

Lemma HasChangesExcept_true {F : Type} `{Schema F} (d : ResourceData F) keys key :
  key ∈ schema_keys → key ∉ keys → HasChange d key = true →
  HasChangesExcept d keys = true.
Proof.
  intros Hin Hout Hch. unfold HasChangesExcept. apply existsb_exists.
  exists key. split; [by apply list_elem_of_In|].
  by rewrite (bool_decide_eq_false_2 _ Hout), Hch.
Qed.

Lemma topic_HasChange_in_schema (d : TopicResourceData) key :
  HasChange d key = true → key ∈ @schema_keys TopicAttrs _.
Proof.
  unfold HasChange. destruct key; simpl; intros Hch; try discriminate;
    apply (bool_decide_unpack _); vm_compute; exact I.
Qed.

Lemma acl_HasChange_in_schema (d : AclResourceData) key :
  HasChange d key = true → key ∈ @schema_keys AclAttrs _.
Proof.
  unfold HasChange. destruct key; simpl; intros Hch; try discriminate;
    apply (bool_decide_unpack _); vm_compute; exact I.
Qed.

Section TopicUpdateProperties.
Context {W : Type} `{KafkaRest W} `{MapRange}.
Implicit Types (d : TopicResourceData) (w : World W).

Lemma HasChange_configs d :
  t_config (rd_state d) ≠ t_config (rd_attrs d) → HasChange d paramConfigs = true.
Proof. intros Hne. unfold HasChange. simpl. by apply bool_decide_eq_true. Qed.

Lemma range_elem (m : gmap string string) name value :
  (name, value) ∈ range m ↔ m !! name = Some value.
Proof. rewrite range_perm. apply elem_of_map_to_list. Qed.

(** C2. When a key of the old configuration map is absent from the new one,
    the update returns an error and leaves the world as it was: no remote
    call is recorded and the remote state is the same. *)
Theorem topic_update_rejects_removed_setting d w name :
  is_Some (t_config (rd_state d) !! name) →
  t_config (rd_attrs d) !! name = None →
  ∃ e, kafkaTopicUpdate d w = ([e], w)
       ∧ (e = ErrTopicOnlyBlocksUpdatable (Id d) ∨ e = ErrTopicSettingRemoved (Id d)).
Proof.
  intros [value Hold] Hnew. unfold kafkaTopicUpdate.
  destruct (HasChangesExcept d _); [by eexists; split; [|left]|].
  rewrite HasChange_configs by (intros Heq; rewrite Heq in Hold; congruence).
  cbn [extractOldAndNewTopicSettings].
  rewrite (verifyNoTopicSettingRemoved_found _ _ _ name value)
    by (done || by apply range_elem).
  by eexists; split; [|right].
Qed.

(** The calls of an update: none, or the batch that the second loop built and
    then at most the re-read of the settings. *)
Lemma kafkaTopicUpdate_calls d w :
  snd (kafkaTopicUpdate d w) = w
  ∨ HasChangesExcept d [paramCredentials; paramConfigs] = false
    ∧ HasChange d paramConfigs = true
    ∧ ∃ batch rest,
        collectTopicSettingsUpdateBatch (Id d) (range (t_config (rd_attrs d)))
          (t_config (rd_state d)) [] = inr batch
        ∧ calls (snd (kafkaTopicUpdate d w))
          = calls w ++ CallUpdateTopicConfigBatch (topicClient d) (t_topic_name (rd_attrs d)) batch
                       :: rest
        ∧ (rest = [] ∨ rest = [CallListTopicConfigs (topicClient d) (t_topic_name (rd_attrs d))]).
Proof.
  unfold kafkaTopicUpdate.
  destruct (HasChangesExcept d _); [by left|].
  destruct (HasChange d paramConfigs); [|by left].
  cbn [extractOldAndNewTopicSettings].
  destruct (verifyNoTopicSettingRemoved _ _ _); [by left|].
  destruct (collectTopicSettingsUpdateBatch _ _ _ _) as [diags|batch]; [by left|].
  right. split; [done|]. split; [done|]. exists batch.
  run_remote.
  destruct (UpdateKafkaV3TopicConfigBatch _ _ _ _) as [[[]|resp err] r1]; simpl.
  - destruct (ListKafkaV3TopicConfigs _ _ _) as [[data|resp err] r2]; simpl.
    + destruct (compareTopicSettings _ _ _ _).
      eexists. split; [done|]. simpl. rewrite <- app_assoc. split; [done|by right].
    + eexists. split; [done|]. simpl. rewrite <- app_assoc. split; [done|by right].
  - exists []. split; [done|]. split; [done|by left].
Qed.

(** C3. With no key removed: an update that adds or changes a setting outside
    the allow-list of eleven editable settings returns an error and leaves the
    world as it was; every batch that an update submits holds, once each,
    exactly the settings that were added or changed, each with its new value;
    and an update of the configuration map alone whose added and changed
    settings are all editable does submit that batch, as its first call. *)
Theorem topic_update_batch_is_changed_settings d w :
  (∀ name, is_Some (t_config (rd_state d) !! name) →
           is_Some (t_config (rd_attrs d) !! name)) →
  length editableTopicSettings = 11%nat
  ∧ ((∃ name value,
        t_config (rd_attrs d) !! name = Some value
        ∧ t_config (rd_state d) !! name ≠ Some value
        ∧ name ∉ editableTopicSettings) →
     ∃ e, kafkaTopicUpdate d w = ([e], w))
  ∧ (∀ made c topicName batch,
       calls (snd (kafkaTopicUpdate d w)) = calls w ++ made →
       CallUpdateTopicConfigBatch c topicName batch ∈ made →
       NoDup batch
       ∧ ∀ x, x ∈ batch ↔
           ∃ name value, x = mkAlterConfig name (Some value)
             ∧ t_config (rd_attrs d) !! name = Some value
             ∧ t_config (rd_state d) !! name ≠ Some value)
  ∧ (HasChangesExcept d [paramCredentials; paramConfigs] = false →
     t_config (rd_state d) ≠ t_config (rd_attrs d) →
     (∀ name value,
        t_config (rd_attrs d) !! name = Some value →
        t_config (rd_state d) !! name ≠ Some value →
        name ∈ editableTopicSettings) →
     ∃ batch rest,
       calls (snd (kafkaTopicUpdate d w))
       = calls w ++ CallUpdateTopicConfigBatch (topicClient d) (t_topic_name (rd_attrs d)) batch
                    :: rest).
Proof.
  intros Hkept. split; [reflexivity|]. split; [|split].
  - intros (name & value & Hnew & Hold & Hro). unfold kafkaTopicUpdate.
    destruct (HasChangesExcept d _); [by eexists|].
    rewrite HasChange_configs by (intros Heq; by rewrite Heq in Hold).
    cbn [extractOldAndNewTopicSettings].
    rewrite verifyNoTopicSettingRemoved_kept
      by (intros k v Hin%range_elem; apply Hkept; by exists v).
    destruct (collectTopicSettingsUpdateBatch_read_only (Id d)
                (range (t_config (rd_attrs d))) (t_config (rd_state d)) [] name value)
      as (readOnly & _ & ->); [by apply range_elem|done|done|].
    by eexists.
  - intros made c topicName batch Hcalls Hin.
    destruct (kafkaTopicUpdate_calls d w) as [Hsame|(_ & _ & b & rest & Hrun & Hc & Hrest)].
    + rewrite Hsame in Hcalls. rewrite <- (app_nil_r (calls w)) in Hcalls at 1.
      apply app_inv_head in Hcalls. subst made. by apply elem_of_nil in Hin.
    + rewrite Hc in Hcalls. apply app_inv_head in Hcalls. subst made.
      assert (batch = b) as ->.
      { apply elem_of_cons in Hin as [Heq|Hin]; [by injection Heq|].
        destruct Hrest as [->| ->]; [by apply elem_of_nil in Hin|].
        apply list_elem_of_singleton in Hin. discriminate. }
      apply collectTopicSettingsUpdateBatch_inr in Hrun as [-> _]. simpl.
      apply changedSettings_spec, range_perm.
  - intros Hexcept Hne Hed.
    destruct (kafkaTopicUpdate_calls d w) as [Hsame|(_ & _ & b & rest & _ & Hc & _)];
      [|by exists b, rest].
    exfalso. revert Hsame. unfold kafkaTopicUpdate.
    rewrite Hexcept, (HasChange_configs d Hne). cbn [extractOldAndNewTopicSettings].
    rewrite verifyNoTopicSettingRemoved_kept
      by (intros k v Hin%range_elem; apply Hkept; by exists v).
    rewrite (collectTopicSettingsUpdateBatch_editable (Id d))
      by (intros k v Hin%range_elem; by apply Hed).
    run_remote.
    intros Hsame. apply (f_equal (λ x, length (calls x))) in Hsame. revert Hsame.
    destruct (UpdateKafkaV3TopicConfigBatch _ _ _ _) as [[[]|resp err] r1]; simpl.
    + destruct (ListKafkaV3TopicConfigs _ _ _) as [[data|resp err] r2]; simpl;
        [destruct (compareTopicSettings _ _ _ _)|]; simpl; rewrite !length_app; simpl; lia.
    + rewrite length_app. simpl. lia.
Qed.

End TopicUpdateProperties.

Lemma topic_update_rejects_removed_setting_witness :
  is_Some (t_config (rd_state retentionRemoval) !! "retention.ms")
  ∧ t_config (rd_attrs retentionRemoval) !! "retention.ms" = None
  ∧ ∃ e, kafkaTopicUpdate retentionRemoval (startWorld (ordersRemote true))
         = ([e], startWorld (ordersRemote true))
         ∧ (e = ErrTopicOnlyBlocksUpdatable (Id retentionRemoval)
            ∨ e = ErrTopicSettingRemoved (Id retentionRemoval)).
Proof.
  split; [by vm_compute; eexists|]. split; [reflexivity|].
  apply (topic_update_rejects_removed_setting retentionRemoval
           (startWorld (ordersRemote true)) "retention.ms").
  - vm_compute. by eexists.
  - reflexivity.
Defined.

Lemma topic_update_batch_is_changed_settings_witness :
  (∀ name, is_Some (t_config (rd_state retentionUpdate) !! name) →
           is_Some (t_config (rd_attrs retentionUpdate) !! name))
  ∧ ∃ batch rest,
      calls (snd (kafkaTopicUpdate retentionUpdate (startWorld (ordersRemote true))))
      = calls (startWorld (ordersRemote true))
        ++ CallUpdateTopicConfigBatch (topicClient retentionUpdate) "orders" batch :: rest.
Proof.
  assert (∀ name, is_Some (t_config (rd_state retentionUpdate) !! name) →
                  is_Some (t_config (rd_attrs retentionUpdate) !! name)) as Hkept.
  { intros name [v Hv]. unfold retentionUpdate, ordersAttrs in Hv.
    cbn [t_config rd_state] in Hv.
    apply lookup_singleton_Some in Hv as [<- _]. vm_compute. by eexists. }
  split; [exact Hkept|].
  apply (topic_update_batch_is_changed_settings retentionUpdate
           (startWorld (ordersRemote true)) Hkept).
  - reflexivity.
  - intros Heq. apply (f_equal (λ m : gmap string string, m !! "retention.ms")) in Heq.
    vm_compute in Heq. discriminate.
  - intros name value Hv _. unfold retentionUpdate, ordersAttrs in Hv.
    cbn [t_config rd_attrs] in Hv. apply lookup_singleton_Some in Hv as [<- _].
    apply (bool_decide_unpack _). vm_compute. exact I.
Defined.

(** C5. A topic update in which an attribute other than the credentials block
    or the configuration map has a change, and an ACL update in which an
    attribute other than the credentials block has a change, return an error
    and leave the world as it was: no remote call is recorded. *)
Theorem update_rejects_change_of_immutable_attribute :
  (∀ (W : Type) (S : KafkaRest W) (R : MapRange) (d : TopicResourceData) (w : World W)
     (key : Param),
     key ∉ [paramCredentials; paramConfigs] → HasChange d key = true →
     kafkaTopicUpdate d w = ([ErrTopicOnlyBlocksUpdatable (Id d)], w))
  ∧ (∀ (W : Type) (S : KafkaRest W) (d : AclResourceData) (w : World W) (key : Param),
       key ∉ [paramCredentials] → HasChange d key = true →
       kafkaAclUpdate d w = (([ErrAclOnlyCredentialsUpdatable (Id d)], d), w)).
Proof.
  split.
  - intros W S R d w key Hout Hch. unfold kafkaTopicUpdate.
    by rewrite (HasChangesExcept_true d _ key (topic_HasChange_in_schema d key Hch) Hout Hch).
  - intros W S d w key Hout Hch. unfold kafkaAclUpdate.
    by rewrite (HasChangesExcept_true d _ key (acl_HasChange_in_schema d key Hch) Hout Hch).
Qed.

Lemma update_rejects_change_of_immutable_attribute_witness :
  kafkaTopicUpdate partitionsUpdate (startWorld (ordersRemote true))
  = ([ErrTopicOnlyBlocksUpdatable (Id partitionsUpdate)], startWorld (ordersRemote true))
  ∧ kafkaAclUpdate aclHostUpdate (startWorld (aclRemote (Some [readOrdersAclData])))
    = (([ErrAclOnlyCredentialsUpdatable (Id aclHostUpdate)], aclHostUpdate),
       startWorld (aclRemote (Some [readOrdersAclData]))).
Proof.
  split.
  - apply (proj1 update_rejects_change_of_immutable_attribute _ _ _ _ _ paramPartitionsCount).
    + apply (bool_decide_unpack _). vm_compute. exact I.
    + reflexivity.
  - apply (proj2 update_rejects_change_of_immutable_attribute _ _ _ _ paramHost).
    + apply (bool_decide_unpack _). vm_compute. exact I.
    + reflexivity.
Defined.

(** ** The check after the settings update *)

(** An update never returns the diagnostic of the outdated settings. *)
Lemma kafkaTopicUpdate_never_reports_outdated {W : Type} `{KafkaRest W} `{MapRange}
    (d : TopicResourceData) (w : World W) id names :
  ErrTopicSettingsOutdated id names ∉ fst (kafkaTopicUpdate d w).
Proof.
  unfold kafkaTopicUpdate.
  destruct (HasChangesExcept d _); [simpl; by intros [?|[]%elem_of_nil]%elem_of_cons|].
  destruct (HasChange d paramConfigs); [|apply not_elem_of_nil].
  cbn [extractOldAndNewTopicSettings].
  destruct (verifyNoTopicSettingRemoved _ _ _) as [diags|] eqn:Hv.
  { simpl. intros Hin. revert Hv.
    generalize (range (t_config (rd_state d))). intros l.
    induction l as [|[k v] l IH]; simpl; [done|].
    destruct (_ !! k); [done|]. intros [= <-].
    by apply elem_of_cons in Hin as [?|[]%elem_of_nil]. }
  destruct (collectTopicSettingsUpdateBatch _ _ _ _) as [diags|batch] eqn:Hc.
  { simpl. intros Hin. revert Hc. generalize (@nil AlterConfigBatchRequestDataData).
    generalize (range (t_config (rd_attrs d))). intros l.
    induction l as [|[k v] l IH]; intros acc; simpl; [done|].
    destruct (isTopicSettingValueUpdated _ _ _); [|by apply IH].
    destruct (stringInSlice _ _); [by apply IH|]. intros [= <-].
    by apply elem_of_cons in Hin as [?|[]%elem_of_nil]. }
  run_remote.
  destruct (UpdateKafkaV3TopicConfigBatch _ _ _ _) as [[[]|resp err] r1]; simpl.
  - destruct (ListKafkaV3TopicConfigs _ _ _) as [[data|resp err] r2]; simpl.
    + destruct (compareTopicSettings _ _ _ _). apply not_elem_of_nil.
    + by intros [?|[]%elem_of_nil]%elem_of_cons.
  - by intros [?|[]%elem_of_nil]%elem_of_cons.
Qed.

(** C1, the code at a failing input. The update of [retention.ms] from 1 to 2
    is submitted and accepted, the re-read still gives 1, the comparison puts
    [retention.ms] among the outdated settings and builds the diagnostic for
    it, and the update returns no diagnostic at all. *)
Theorem topic_update_divergence_goes_unreported :
  ∃ w' : World SimRemote,
    kafkaTopicUpdate retentionUpdate (startWorld (ordersRemote false)) = ([], w')
    ∧ calls w'
      = [CallUpdateTopicConfigBatch (topicClient retentionUpdate) "orders"
           [mkAlterConfig "retention.ms" (Some "2")];
         CallListTopicConfigs (topicClient retentionUpdate) "orders"]
    ∧ fst (loadTopicConfigs retentionUpdate (topicClient retentionUpdate) "orders" w')
      = inr {[ "retention.ms" := "1" ]}
    ∧ compareTopicSettings [mkAlterConfig "retention.ms" (Some "2")]
        {[ "retention.ms" := "1" ]} [] []
      = ([], ["retention.ms"])
    ∧ outdatedTopicSettingsDiagnostics (Id retentionUpdate) ["retention.ms"]
      = [ErrTopicSettingsOutdated "lkc-1/orders" ["retention.ms"]].
Proof.
  eexists. split; [vm_compute; reflexivity|].
  split; [reflexivity|]. split; [by vm_compute|]. split; [by vm_compute|reflexivity].
Qed.

(** ** Reading a topic *)

Section DynamicConfigs.
Implicit Types (data : list TopicConfigData) (config : gmap string string).

Lemma collectDynamicConfigs_source data config name value :
  collectDynamicConfigs data config !! name = Some value →
  config !! name = Some value
  ∨ ∃ e, e ∈ data ∧ cfg_Name e = name
      ∧ cfg_Source e = CONFIGSOURCE_DYNAMIC_TOPIC_CONFIG ∧ cfg_Value e = Some value.
Proof.
  revert config. induction data as [|e data IH]; intros config Hget; [by left|].
  simpl in Hget. destruct (cfg_Value e) as [v|] eqn:Hv.
  - case_bool_decide as Hsrc.
    + destruct (IH _ Hget) as [Hcfg|(e' & Hin & Hrest)].
      * destruct (decide (cfg_Name e = name)) as [Hname|Hname].
        -- rewrite <- Hname, lookup_insert_eq in Hcfg. injection Hcfg as ->.
           right. exists e. split; [left|done].
        -- rewrite lookup_insert_ne in Hcfg by done. by left.
      * right. exists e'. split; [by right|done].
    + destruct (IH _ Hget) as [Hcfg|(e' & Hin & Hrest)]; [by left|].
      right. exists e'. split; [by right|done].
  - destruct (IH _ Hget) as [Hcfg|(e' & Hin & Hrest)]; [by left|].
    right. exists e'. split; [by right|done].
Qed.

Lemma collectDynamicConfigs_keeps data config name :
  is_Some (config !! name) → is_Some (collectDynamicConfigs data config !! name).
Proof.
  revert config. induction data as [|e data IH]; intros config Hsome; [done|].
  simpl. destruct (cfg_Value e) as [v|]; [|by apply IH].
  case_bool_decide; [|by apply IH]. apply IH.
  destruct (decide (cfg_Name e = name)) as [<-|Hname].
  - rewrite lookup_insert_eq. by eexists.
  - by rewrite lookup_insert_ne.
Qed.

Lemma collectDynamicConfigs_has data config e :
  e ∈ data → cfg_Source e = CONFIGSOURCE_DYNAMIC_TOPIC_CONFIG → is_Some (cfg_Value e) →
  is_Some (collectDynamicConfigs data config !! cfg_Name e).
Proof.
  revert config. induction data as [|e' data IH]; intros config Hin Hsrc [v Hv].
  - by apply elem_of_nil in Hin.
  - apply elem_of_cons in Hin as [<-|Hin].
    + simpl. rewrite Hv, bool_decide_eq_true_2 by done.
      apply collectDynamicConfigs_keeps. rewrite lookup_insert_eq. by eexists.
    + simpl. destruct (cfg_Value e'); [case_bool_decide|]; apply IH; by eauto.
Qed.

Lemma collectDynamicConfigs_other data config name :
  name ∉ cfg_Name <$> data → collectDynamicConfigs data config !! name = config !! name.
Proof.
  revert config. induction data as [|e data IH]; intros config Hout; [done|].
  rewrite fmap_cons, not_elem_of_cons in Hout. destruct Hout as [Hne Hout].
  simpl. destruct (cfg_Value e); [case_bool_decide|]; rewrite IH by done; [|done..].
  by rewrite lookup_insert_ne.
Qed.

Lemma collectDynamicConfigs_unique data config e value :
  NoDup (cfg_Name <$> data) →
  e ∈ data → cfg_Source e = CONFIGSOURCE_DYNAMIC_TOPIC_CONFIG → cfg_Value e = Some value →
  collectDynamicConfigs data config !! cfg_Name e = Some value.
Proof.
  revert config. induction data as [|e' data IH]; intros config Hnd Hin Hsrc Hv.
  - by apply elem_of_nil in Hin.
  - rewrite fmap_cons in Hnd. apply NoDup_cons in Hnd as [Hfresh Hnd].
    apply elem_of_cons in Hin as [<-|Hin].
    + simpl. rewrite Hv, bool_decide_eq_true_2 by done.
      rewrite collectDynamicConfigs_other by done. apply lookup_insert_eq.
    + simpl. destruct (cfg_Value e'); [case_bool_decide|]; by apply IH.
Qed.

End DynamicConfigs.

Section TopicReadProperties.
Context {W : Type} `{KafkaRest W}.
Implicit Types (d : TopicResourceData) (w : World W).

(** A 404 from the fetch of the topic, inside [readTopicAndSetAttributes]. *)
Lemma readTopicAndSetAttributes_not_found d c topicName w err r1 :
  GetKafkaV3Topic c topicName (remote w)
    = (ApiErr (Some (mkResponse StatusNotFound)) err, r1) →
  fst (readTopicAndSetAttributes d c topicName w)
  = if IsNewResource d then (Some err, d) else (None, SetId "" d).
Proof.
  intros Hget. unfold readTopicAndSetAttributes. run_remote. rewrite Hget. simpl.
  by destruct (IsNewResource d).
Qed.

(** A topic and its settings fetched: what [readTopicAndSetAttributes] writes. *)
Lemma readTopicAndSetAttributes_found d c topicName w kafkaTopic r1 data r2 :
  GetKafkaV3Topic c topicName (remote w) = (ApiOk kafkaTopic, r1) →
  ListKafkaV3TopicConfigs c topicName r1 = (ApiOk data, r2) →
  fst (readTopicAndSetAttributes d c topicName w)
  = (None,
     mkResourceData (createKafkaTopicId (clusterId c) topicName) (rd_isNew d) (rd_state d)
       (mkTopicAttrs (clusterId c) (TopicName kafkaTopic) (PartitionsCount kafkaTopic)
          (httpEndpoint c) (collectDynamicConfigs data ∅)
          (clusterApiKey c) (clusterApiSecret c))).
Proof.
  intros Hget Hlist. unfold readTopicAndSetAttributes. run_remote.
  rewrite Hget. simpl. by rewrite Hlist.
Qed.

(** C10. When a topic Read fetches the topic and its settings, it succeeds
    and the configuration map it writes has, as keys, exactly the names of the
    remote settings with source [DYNAMIC_TOPIC_CONFIG] and a value; every
    value it holds is the value of such a setting; and, the names of the
    remote settings being distinct, it holds every such setting with its
    value. *)
Theorem topic_read_config_is_dynamic_settings d w kafkaTopic r1 data r2 :
  GetKafkaV3Topic (topicClient d) (t_topic_name (rd_attrs d)) (remote w)
    = (ApiOk kafkaTopic, r1) →
  ListKafkaV3TopicConfigs (topicClient d) (t_topic_name (rd_attrs d)) r1
    = (ApiOk data, r2) →
  ∃ d', fst (kafkaTopicRead d w) = ([], d')
    ∧ (∀ name, is_Some (t_config (rd_attrs d') !! name) ↔
         ∃ e, e ∈ data ∧ cfg_Name e = name
           ∧ cfg_Source e = CONFIGSOURCE_DYNAMIC_TOPIC_CONFIG ∧ is_Some (cfg_Value e))
    ∧ (∀ name value, t_config (rd_attrs d') !! name = Some value →
         ∃ e, e ∈ data ∧ cfg_Name e = name
           ∧ cfg_Source e = CONFIGSOURCE_DYNAMIC_TOPIC_CONFIG ∧ cfg_Value e = Some value)
    ∧ (NoDup (cfg_Name <$> data) →
       ∀ e value, e ∈ data → cfg_Source e = CONFIGSOURCE_DYNAMIC_TOPIC_CONFIG →
         cfg_Value e = Some value →
         t_config (rd_attrs d') !! cfg_Name e = Some value).
Proof.
  intros Hget Hlist.
  pose proof (readTopicAndSetAttributes_found d _ _ w _ _ _ _ Hget Hlist) as Hread.
  unfold kafkaTopicRead. unfold mbind, M_bind at 1.
  destruct (readTopicAndSetAttributes d _ _ w) as [[err d'] w'].
  simpl in Hread. injection Hread as -> ->. eexists. split; [done|].
  cbn [rd_attrs t_config].
  assert (∀ name value, collectDynamicConfigs data ∅ !! name = Some value →
            ∃ e, e ∈ data ∧ cfg_Name e = name
              ∧ cfg_Source e = CONFIGSOURCE_DYNAMIC_TOPIC_CONFIG
              ∧ cfg_Value e = Some value) as Hsrc.
  { intros name value [Hempty|Hfrom]%collectDynamicConfigs_source; [|done].
    by rewrite lookup_empty in Hempty. }
  split; [|split; [done|]].
  - intros name. split.
    + intros [value (e & Hin & Hname & Hdyn & Hv)%Hsrc].
      exists e. by rewrite Hv.
    + intros (e & Hin & <- & Hdyn & Hv). by apply collectDynamicConfigs_has.
  - intros Hnd e value Hin Hdyn Hv. by apply collectDynamicConfigs_unique.
Qed.

(** A 404 from the fetch of the topic, seen from [kafkaTopicRead]. *)
Lemma kafkaTopicRead_not_found d w err r1 :
  GetKafkaV3Topic (topicClient d) (t_topic_name (rd_attrs d)) (remote w)
    = (ApiErr (Some (mkResponse StatusNotFound)) err, r1) →
  fst (kafkaTopicRead d w)
  = if IsNewResource d then ([Descriptive err], d) else ([], SetId "" d).
Proof.
  intros Hget.
  pose proof (readTopicAndSetAttributes_not_found d _ _ w _ _ Hget) as Hread.
  unfold kafkaTopicRead. unfold mbind, M_bind at 1.
  destruct (readTopicAndSetAttributes d _ _ w) as [[e d'] w'].
  simpl in Hread. simpl. by destruct (IsNewResource d); injection Hread as -> ->.
Qed.

End TopicReadProperties.

Lemma topic_read_config_is_dynamic_settings_witness :
  GetKafkaV3Topic (topicClient (ordersState false)) "orders" (ordersRemote true)
    = (ApiOk (mkTopicData "orders" 6), ordersRemote true)
  ∧ ListKafkaV3TopicConfigs (topicClient (ordersState false)) "orders" (ordersRemote true)
    = (ApiOk ordersConfigs, ordersRemote true)
  ∧ ∃ d', fst (kafkaTopicRead (ordersState false) (startWorld (ordersRemote true))) = ([], d')
      ∧ (∀ name, is_Some (t_config (rd_attrs d') !! name) ↔
           ∃ e, e ∈ ordersConfigs ∧ cfg_Name e = name
             ∧ cfg_Source e = CONFIGSOURCE_DYNAMIC_TOPIC_CONFIG ∧ is_Some (cfg_Value e))
      ∧ (∀ name value, t_config (rd_attrs d') !! name = Some value →
           ∃ e, e ∈ ordersConfigs ∧ cfg_Name e = name
             ∧ cfg_Source e = CONFIGSOURCE_DYNAMIC_TOPIC_CONFIG ∧ cfg_Value e = Some value)
      ∧ (NoDup (cfg_Name <$> ordersConfigs) →
         ∀ e value, e ∈ ordersConfigs → cfg_Source e = CONFIGSOURCE_DYNAMIC_TOPIC_CONFIG →
           cfg_Value e = Some value →
           t_config (rd_attrs d') !! cfg_Name e = Some value).
Proof.
  split; [reflexivity|]. split; [reflexivity|].
  apply (topic_read_config_is_dynamic_settings (ordersState false)
           (startWorld (ordersRemote true)) (mkTopicData "orders" 6) (ordersRemote true)
           ordersConfigs (ordersRemote true)); reflexivity.
Defined.

(** ** Reading an ACL *)

Section AclReadProperties.
Context {W : Type} `{KafkaRest W}.
Implicit Types (d : AclResourceData) (w : World W).

(** The enumeration attributes of [d] are accepted values, as the schema's
    [ValidateFunc]s have it: [extractAcl] succeeds. *)
Lemma extractAcl_accepted d :
  a_resource_type (rd_attrs d) ∈ acceptedResourceTypes →
  a_pattern_type (rd_attrs d) ∈ acceptedPatternTypes →
  a_operation (rd_attrs d) ∈ acceptedOperations →
  a_permission (rd_attrs d) ∈ acceptedPermissions →
  extractAcl d
  = inr (mkAcl (a_resource_type (rd_attrs d)) (a_resource_name (rd_attrs d))
           (a_pattern_type (rd_attrs d)) (a_principal (rd_attrs d)) (a_host (rd_attrs d))
           (a_operation (rd_attrs d)) (a_permission (rd_attrs d))).
Proof.
  intros Hr Hp Ho Hm. unfold extractAcl, stringToAclResourceType, stringToAclPatternType,
    stringToAclOperation, stringToAclPermission.
  by rewrite !stringInSlice_elem.
Qed.

(** The ACL that [extractAcl] builds carries the principal of the state. *)
Lemma extractAcl_Principal d acl :
  extractAcl d = inr acl → Principal acl = a_principal (rd_attrs d).
Proof.
  unfold extractAcl.
  destruct (stringToAclResourceType _); [done|].
  destruct (stringToAclPatternType _); [done|].
  destruct (stringToAclOperation _); [done|].
  destruct (stringToAclPermission _); [done|].
  by intros [= <-].
Qed.

(** C8. An ACL Read whose ACL can be extracted from the state (as it can
    when the four enumeration attributes hold values that the schema accepts,
    see [extractAcl_accepted]) and whose principal in state starts neither
    with [User:sa-] nor with [User:u-] clears the resource ID and succeeds,
    and leaves the world as it was: no remote call is recorded. *)
Theorem acl_read_drops_principal_without_resource_id d w acl :
  extractAcl d = inr acl →
  GoStrings.HasPrefix (a_principal (rd_attrs d)) "User:sa-" = false →
  GoStrings.HasPrefix (a_principal (rd_attrs d)) "User:u-" = false →
  kafkaAclRead d w = (([], SetId "" d), w).
Proof.
  intros Hacl Hsa Hu. unfold kafkaAclRead.
  rewrite Hacl, (extractAcl_Principal d acl Hacl).
  by rewrite Hsa, Hu.
Qed.

(** The outcome of [readAclAndSetAttributes] once the principal is resolved
    and the list call has failed with a 404. *)
Lemma readAclAndSetAttributes_not_found d c acl w integerId r1 err r2 :
  LookupPrincipalIntegerId (Principal acl) (remote w) = (inr integerId, r1) →
  GetKafkaV3Acls c (getAclsOpts acl integerId) r1
    = (ApiErr (Some (mkResponse StatusNotFound)) err, r2) →
  fst (readAclAndSetAttributes d c acl w)
  = if IsNewResource d then (Some err, d) else (None, SetId "" d).
Proof.
  intros Hlook Hget. unfold readAclAndSetAttributes. run_remote.
  rewrite Hlook. simpl. rewrite Hget. simpl. by destruct (IsNewResource d).
Qed.

(** The outcome of [readAclAndSetAttributes] once the principal is resolved
    and the list call has succeeded with [data]. *)
Lemma readAclAndSetAttributes_listed d c acl w integerId r1 data r2 :
  LookupPrincipalIntegerId (Principal acl) (remote w) = (inr integerId, r1) →
  GetKafkaV3Acls c (getAclsOpts acl integerId) r1 = (ApiOk data, r2) →
  fst (readAclAndSetAttributes d c acl w)
  = match data with
    | [] => (Some (ErrAclNoneMatched (Id d)), d)
    | [matchedAcl] =>
        (None, mkResourceData (createKafkaAclId (clusterId c) acl) (rd_isNew d) (rd_state d)
                 (setAclAttributes c matchedAcl acl (rd_attrs d)))
    | _ :: _ :: _ => (Some (ErrAclMultipleMatched (Id d)), d)
    end.
Proof.
  intros Hlook Hget. unfold readAclAndSetAttributes. run_remote.
  rewrite Hlook. simpl. rewrite Hget. simpl. by destruct data as [|m [|m' data]].
Qed.

(** [kafkaAclRead] past its two early exits. *)
Lemma kafkaAclRead_reads d w acl :
  extractAcl d = inr acl →
  GoStrings.HasPrefix (Principal acl) "User:sa-"
  || GoStrings.HasPrefix (Principal acl) "User:u-" = true →
  fst (kafkaAclRead d w)
  = (diag_FromErr (createDescriptiveError (fst (fst (readAclAndSetAttributes d (aclClient d) acl w)))),
     snd (fst (readAclAndSetAttributes d (aclClient d) acl w))).
Proof.
  intros Hacl Hprefix. unfold kafkaAclRead. rewrite Hacl, Hprefix. simpl.
  unfold mbind, M_bind at 1.
  by destruct (readAclAndSetAttributes d _ acl w) as [[err d'] w'].
Qed.

(** [kafkaAclImport] past the environment check and the parse of the ID. *)
Lemma kafkaAclImport_reads env d w importedClusterId serializedAcl acl :
  GoStrings.Split (Id d) "/" = [importedClusterId; serializedAcl] →
  deserializeAcl serializedAcl = inr acl →
  let c := CreateKafkaRestClient (kafkaHttpEndpoint env) importedClusterId
             (kafkaApiKey env) (kafkaApiSecret env) in
  let read := fst (readAclAndSetAttributes (MarkNewResource d) c acl w) in
  fst (kafkaAclImport (inr env) d w)
  = match fst read with
    | Some e => (Some (ErrAclImport (Id (snd read)) (createDescriptiveError (Some e))), snd read)
    | None => (None, snd read)
    end.
Proof.
  intros Hsplit Hacl c read. unfold kafkaAclImport. rewrite Hsplit.
  rewrite bool_decide_eq_false_2 by (simpl; lia). cbn [nth]. rewrite Hacl.
  unfold mbind, M_bind at 1. subst read c.
  destruct (readAclAndSetAttributes (MarkNewResource d) _ acl w) as [[[e|] d'] w']; done.
Qed.

End AclReadProperties.

(** C4. When the remote fetch of a topic Read or of an ACL Read fails with
    HTTP 404: on a resource that is not newly created the Read clears the
    resource ID and succeeds; on a newly created resource it returns that
    error. *)
Theorem read_not_found_drops_resource_unless_new :
  (∀ (W : Type) (S : KafkaRest W) (d : TopicResourceData) (w : World W)
     (err : error) (r1 : W),
     GetKafkaV3Topic (topicClient d) (t_topic_name (rd_attrs d)) (remote w)
       = (ApiErr (Some (mkResponse StatusNotFound)) err, r1) →
     (IsNewResource d = false → fst (kafkaTopicRead d w) = ([], SetId "" d))
     ∧ (IsNewResource d = true → fst (kafkaTopicRead d w) = ([Descriptive err], d)))
  ∧ (∀ (W : Type) (S : KafkaRest W) (d : AclResourceData) (w : World W)
       (acl : Acl) (integerId : string) (r1 : W) (err : error) (r2 : W),
       extractAcl d = inr acl →
       GoStrings.HasPrefix (Principal acl) "User:sa-"
       || GoStrings.HasPrefix (Principal acl) "User:u-" = true →
       LookupPrincipalIntegerId (Principal acl) (remote w) = (inr integerId, r1) →
       GetKafkaV3Acls (aclClient d) (getAclsOpts acl integerId) r1
         = (ApiErr (Some (mkResponse StatusNotFound)) err, r2) →
       (IsNewResource d = false → fst (kafkaAclRead d w) = ([], SetId "" d))
       ∧ (IsNewResource d = true → fst (kafkaAclRead d w) = ([Descriptive err], d))).
Proof.
  split.
  - intros W S d w err r1 Hget. rewrite (kafkaTopicRead_not_found d w err r1 Hget).
    split; by intros ->.
  - intros W S d w acl integerId r1 err r2 Hacl Hprefix Hlook Hget.
    rewrite (kafkaAclRead_reads d w acl Hacl Hprefix).
    rewrite (readAclAndSetAttributes_not_found d _ acl w _ _ _ _ Hlook Hget).
    split; by intros ->.
Qed.

Lemma read_not_found_drops_resource_unless_new_witness :
  fst (kafkaTopicRead (goneState false) (startWorld (ordersRemote true)))
  = ([], SetId "" (goneState false))
  ∧ fst (kafkaTopicRead (goneState true) (startWorld (ordersRemote true)))
    = ([Descriptive (RemoteError "404 Not Found")], goneState true)
  ∧ fst (kafkaAclRead (aclState "User:sa-abc123" false) (startWorld (aclRemote None)))
    = ([], SetId "" (aclState "User:sa-abc123" false))
  ∧ fst (kafkaAclRead (aclState "User:sa-abc123" true) (startWorld (aclRemote None)))
    = ([Descriptive (RemoteError "404 Not Found")], aclState "User:sa-abc123" true).
Proof.
  split; [|split; [|split]].
  - apply (proj1 read_not_found_drops_resource_unless_new SimRemote _ (goneState false)
             (startWorld (ordersRemote true)) (RemoteError "404 Not Found")
             (ordersRemote true)); reflexivity.
  - apply (proj1 read_not_found_drops_resource_unless_new SimRemote _ (goneState true)
             (startWorld (ordersRemote true)) (RemoteError "404 Not Found")
             (ordersRemote true)); reflexivity.
  - apply (proj2 read_not_found_drops_resource_unless_new SimRemote _
             (aclState "User:sa-abc123" false) (startWorld (aclRemote None))
             readOrdersAcl "User:1234" (aclRemote None) (RemoteError "404 Not Found")
             (aclRemote None)); reflexivity.
  - apply (proj2 read_not_found_drops_resource_unless_new SimRemote _
             (aclState "User:sa-abc123" true) (startWorld (aclRemote None))
             readOrdersAcl "User:1234" (aclRemote None) (RemoteError "404 Not Found")
             (aclRemote None)); reflexivity.
Defined.

Lemma acl_read_drops_principal_without_resource_id_witness :
  extractAcl (aclState "User:1234" false)
  = inr (mkAcl "TOPIC" "orders" "LITERAL" "User:1234" "*" "READ" "ALLOW")
  ∧ GoStrings.HasPrefix (a_principal (rd_attrs (aclState "User:1234" false))) "User:sa-" = false
  ∧ GoStrings.HasPrefix (a_principal (rd_attrs (aclState "User:1234" false))) "User:u-" = false
  ∧ kafkaAclRead (aclState "User:1234" false) (startWorld (aclRemote (Some [readOrdersAclData])))
    = (([], SetId "" (aclState "User:1234" false)),
       startWorld (aclRemote (Some [readOrdersAclData]))).
Proof.
  split; [reflexivity|]. split; [reflexivity|]. split; [reflexivity|].
  apply (acl_read_drops_principal_without_resource_id (aclState "User:1234" false)
           (startWorld (aclRemote (Some [readOrdersAclData])))
           (mkAcl "TOPIC" "orders" "LITERAL" "User:1234" "*" "READ" "ALLOW")); reflexivity.
Defined.

(** C9. When the list call of an ACL Read or of an ACL Import succeeds: with
    no match or with more than one match the operation returns an error and
    writes no attribute; with exactly one match it succeeds and writes the
    attributes, the principal being the one of the request (the resource-ID
    form), whatever principal the matched ACL of the server carries. *)
Theorem acl_read_needs_exactly_one_match :
  (∀ (W : Type) (S : KafkaRest W) (d : AclResourceData) (w : World W)
     (acl : Acl) (integerId : string) (r1 : W) (data : list AclData) (r2 : W),
     extractAcl d = inr acl →
     GoStrings.HasPrefix (Principal acl) "User:sa-"
     || GoStrings.HasPrefix (Principal acl) "User:u-" = true →
     LookupPrincipalIntegerId (Principal acl) (remote w) = (inr integerId, r1) →
     GetKafkaV3Acls (aclClient d) (getAclsOpts acl integerId) r1 = (ApiOk data, r2) →
     ((length data = 0 ∨ 1 < length data)%nat →
      ∃ e, fst (kafkaAclRead d w) = ([e], d))
     ∧ (∀ matchedAcl, data = [matchedAcl] →
        ∃ d', fst (kafkaAclRead d w) = ([], d')
          ∧ rd_attrs d' = setAclAttributes (aclClient d) matchedAcl acl (rd_attrs d)
          ∧ a_principal (rd_attrs d') = Principal acl))
  ∧ (∀ (W : Type) (S : KafkaRest W) (env : KafkaImportEnvVars) (d : AclResourceData)
       (w : World W) (importedClusterId serializedAcl : string)
       (acl : Acl) (integerId : string) (r1 : W) (data : list AclData) (r2 : W),
       GoStrings.Split (Id d) "/" = [importedClusterId; serializedAcl] →
       deserializeAcl serializedAcl = inr acl →
       LookupPrincipalIntegerId (Principal acl) (remote w) = (inr integerId, r1) →
       GetKafkaV3Acls
         (CreateKafkaRestClient (kafkaHttpEndpoint env) importedClusterId
            (kafkaApiKey env) (kafkaApiSecret env))
         (getAclsOpts acl integerId) r1 = (ApiOk data, r2) →
       ((length data = 0 ∨ 1 < length data)%nat →
        ∃ e, fst (kafkaAclImport (inr env) d w) = (Some e, MarkNewResource d))
       ∧ (∀ matchedAcl, data = [matchedAcl] →
          ∃ d', fst (kafkaAclImport (inr env) d w) = (None, d')
            ∧ rd_attrs d'
              = setAclAttributes
                  (CreateKafkaRestClient (kafkaHttpEndpoint env) importedClusterId
                     (kafkaApiKey env) (kafkaApiSecret env))
                  matchedAcl acl (rd_attrs d)
            ∧ a_principal (rd_attrs d') = Principal acl)).
Proof.
  split.
  - intros W S d w acl integerId r1 data r2 Hacl Hprefix Hlook Hget.
    rewrite (kafkaAclRead_reads d w acl Hacl Hprefix).
    rewrite (readAclAndSetAttributes_listed d _ acl w _ _ _ _ Hlook Hget).
    split.
    + intros Hlen. destruct data as [|m [|m' data]]; simpl in *; [by eexists|lia|by eexists].
    + intros m ->. simpl. eexists. split; [done|]. by split.
  - intros W S env d w cid ser acl integerId r1 data r2 Hsplit Hacl Hlook Hget.
    rewrite (kafkaAclImport_reads env d w cid ser acl Hsplit Hacl).
    rewrite (readAclAndSetAttributes_listed (MarkNewResource d) _ acl w _ _ _ _ Hlook Hget).
    split.
    + intros Hlen. destruct data as [|m [|m' data]]; simpl in *; [by eexists|lia|by eexists].
    + intros m ->. simpl. eexists. split; [done|]. by split.
Qed.

Lemma acl_read_needs_exactly_one_match_witness :
  (∃ d', fst (kafkaAclRead (aclState "User:sa-abc123" false)
                (startWorld (aclRemote (Some [readOrdersAclData])))) = ([], d')
     ∧ rd_attrs d'
       = setAclAttributes (aclClient (aclState "User:sa-abc123" false)) readOrdersAclData
           readOrdersAcl (rd_attrs (aclState "User:sa-abc123" false))
     ∧ a_principal (rd_attrs d') = "User:sa-abc123")
  ∧ (∃ e, fst (kafkaAclRead (aclState "User:sa-abc123" false)
                 (startWorld (aclRemote (Some [])))) = ([e], aclState "User:sa-abc123" false))
  ∧ (∃ e, fst (kafkaAclImport (inr importEnv) (aclState "User:sa-abc123" false)
                 (startWorld (aclRemote (Some [readOrdersAclData; readOrdersAclData]))))
          = (Some e, MarkNewResource (aclState "User:sa-abc123" false))).
Proof.
  split; [|split].
  - edestruct (proj1 acl_read_needs_exactly_one_match SimRemote _
                 (aclState "User:sa-abc123" false)
                 (startWorld (aclRemote (Some [readOrdersAclData])))
                 readOrdersAcl "User:1234" (aclRemote (Some [readOrdersAclData]))
                 [readOrdersAclData] (aclRemote (Some [readOrdersAclData])))
      as [_ Hone]; [reflexivity..|].
    apply (Hone readOrdersAclData). reflexivity.
  - edestruct (proj1 acl_read_needs_exactly_one_match SimRemote _
                 (aclState "User:sa-abc123" false) (startWorld (aclRemote (Some [])))
                 readOrdersAcl "User:1234" (aclRemote (Some [])) [] (aclRemote (Some [])))
      as [Hnone _]; [reflexivity..|].
    apply Hnone. left. reflexivity.
  - edestruct (proj2 acl_read_needs_exactly_one_match SimRemote _ importEnv
                 (aclState "User:sa-abc123" false)
                 (startWorld (aclRemote (Some [readOrdersAclData; readOrdersAclData])))
                 "lkc-1" (serializeAcl readOrdersAcl)
                 readOrdersAcl "User:1234"
                 (aclRemote (Some [readOrdersAclData; readOrdersAclData]))
                 [readOrdersAclData; readOrdersAclData]
                 (aclRemote (Some [readOrdersAclData; readOrdersAclData])))
      as [Hmany _]; [reflexivity..|].
    apply Hmany. right. simpl. lia.
Defined.

(** * Further properties of the two resources *)

(** ** More on splitting and joining *)

Section SplitJoinLemmas.
Import GoStrings.

Lemma Split_nonempty s sep : Split s sep ≠ [].
Proof.
  destruct s as [|c s]; simpl; [done|].
  destruct (Ascii.eqb c sep); [done|]. by destruct (Split s sep).
Qed.


Lemma Join_cons_byte c piece pieces sep :
  Join (String c piece :: pieces) sep = String c (Join (piece :: pieces) sep).
Proof. by destruct pieces. Qed.

(** Joining the pieces of a string with the separator gives the string. *)
Lemma Join_Split s sep : Join (Split s sep) (String sep "") = s.
Proof.
  induction s as [|c s IH]; [done|]. simpl.
  pose proof (Split_nonempty s sep) as Hne.
  destruct (Ascii.eqb c sep) eqn:Hc.
  - apply Ascii.eqb_eq in Hc as ->.
    destruct (Split s sep) as [|p ps]; [done|].
    change (Join ("" :: p :: ps) (String sep "")) with
      ("" +:+ String sep "" +:+ Join (p :: ps) (String sep "")).
    by rewrite IH.
  - destruct (Split s sep) as [|p ps]; [done|].
    by rewrite Join_cons_byte, IH.
Qed.

Lemma contains_byte_app c s t :
  contains_byte c (s +:+ t) = contains_byte c s || contains_byte c t.
Proof.
  induction s as [|c' s IH]; simpl; [done|]. by rewrite IH, orb_assoc.
Qed.



Lemma list_of_length_7 {A} (l : list A) :
  length l = 7%nat → ∃ a b c d e f g, l = [a; b; c; d; e; f; g].
Proof.
  intros Hlen. do 7 (destruct l as [|? l]; [done|]). destruct l; [|done].
  by do 7 eexists.
Qed.

Lemma list_of_length_2 {A} (l : list A) :
  length l = 2%nat → ∃ a b, l = [a; b].
Proof.
  intros Hlen. do 2 (destruct l as [|? l]; [done|]). destruct l; [|done].
  by do 2 eexists.
Qed.

End SplitJoinLemmas.

Lemma stringInSlice_true target slice : stringInSlice target slice = true → target ∈ slice.
Proof. unfold stringInSlice. by intros ?%bool_decide_eq_true. Qed.

(** ** The ACL identifier, the other way round *)

(** X1. Whatever [deserializeAcl] accepts is the serialization of the ACL it
    returns: joining the seven fields of the result with [#] gives the input
    back, and the four enumeration fields of the result are accepted
    values. *)
Theorem deserializeAcl_serializes_back (serializedAcl : string) (acl : Acl) :
  deserializeAcl serializedAcl = inr acl →
  serializeAcl acl = serializedAcl
  ∧ ResourceType acl ∈ acceptedResourceTypes
  ∧ PatternType acl ∈ acceptedPatternTypes
  ∧ Operation acl ∈ acceptedOperations
  ∧ Permission acl ∈ acceptedPermissions.
Proof.
  unfold deserializeAcl. case_bool_decide as Hlen; [done|].
  destruct (list_of_length_7 _ Hlen) as (p0 & p1 & p2 & p3 & p4 & p5 & p6 & Hparts).
  rewrite Hparts. cbn [nth].
  unfold stringToAclResourceType, stringToAclPatternType, stringToAclOperation,
    stringToAclPermission.
  destruct (stringInSlice p0 _) eqn:H0; [|done].
  destruct (stringInSlice p2 _) eqn:H2; [|done].
  destruct (stringInSlice p5 _) eqn:H5; [|done].
  destruct (stringInSlice p6 _) eqn:H6; [|done].
  intros [= <-]. cbn [ResourceType PatternType Operation Permission].
  split; [|by repeat split; apply stringInSlice_true].
  unfold serializeAcl. cbn [ResourceType ResourceName PatternType Principal Host
    Operation Permission]. rewrite <- Hparts. apply Join_Split.
Qed.

Lemma deserializeAcl_serializes_back_witness :
  deserializeAcl "TOPIC#orders#LITERAL#User:sa-abc123#*#READ#ALLOW" = inr readOrdersAcl
  ∧ serializeAcl readOrdersAcl = "TOPIC#orders#LITERAL#User:sa-abc123#*#READ#ALLOW".
Proof.
  split; [reflexivity|].
  apply (deserializeAcl_serializes_back
           "TOPIC#orders#LITERAL#User:sa-abc123#*#READ#ALLOW" readOrdersAcl).
  reflexivity.
Defined.


Lemma contains_byte_Join_none c fields (sep : Ascii.ascii) :
  Ascii.eqb sep c = false →
  (∀ field, field ∈ fields → GoStrings.contains_byte c field = false) →
  GoStrings.contains_byte c (GoStrings.Join fields (String sep "")) = false.
Proof.
  intros Hsep. induction fields as [|f fields IH]; intros Hall; [done|].
  destruct fields as [|f' fields].
  - apply Hall. left.
  - change (GoStrings.Join (f :: f' :: fields) (String sep ""))
      with (f +:+ String sep "" +:+ GoStrings.Join (f' :: fields) (String sep "")).
    rewrite !contains_byte_app. rewrite (Hall f) by left.
    rewrite IH by (intros field Hin; apply Hall; by right).
    simpl. by rewrite Hsep.
Qed.

Section AclIdentifierProperties.
Context {W : Type} `{KafkaRest W}.
Implicit Types (d : AclResourceData) (w : World W).

(** [readAclAndSetAttributes] with the principal resolved and one ACL
    matched: the result and the world. *)
Lemma readAclAndSetAttributes_matched d c acl w integerId r1 matchedAcl r2 :
  LookupPrincipalIntegerId (Principal acl) (remote w) = (inr integerId, r1) →
  GetKafkaV3Acls c (getAclsOpts acl integerId) r1 = (ApiOk [matchedAcl], r2) →
  readAclAndSetAttributes d c acl w
  = ((None, mkResourceData (createKafkaAclId (clusterId c) acl) (rd_isNew d) (rd_state d)
              (setAclAttributes c matchedAcl acl (rd_attrs d))),
     mkWorld r2 (calls w ++ [CallLookupPrincipal (Principal acl);
                             CallGetAcls c (getAclsOpts acl integerId)])).
Proof.
  intros Hlook Hget. unfold readAclAndSetAttributes. run_remote.
  rewrite Hlook. simpl. rewrite Hget. simpl. by rewrite <- app_assoc.
Qed.


(** X3. Importing the identifier that the provider built for an ACL of
    cluster [importedClusterId], when neither the cluster ID nor a field of
    the ACL holds a [/], no field holds a [#], the four enumeration fields
    are accepted values, the principal resolves and the server matches one
    ACL: the import succeeds after exactly the lookup and the list call, the
    resource keeps its identifier and is marked new, and the attributes are
    those of the matched ACL with the principal of the identifier, the
    cluster ID of the identifier and the credentials and endpoint of the
    environment. *)
Theorem acl_import_of_built_id env d w importedClusterId acl integerId r1 matchedAcl r2 :
  Id d = createKafkaAclId importedClusterId acl →
  GoStrings.contains_byte "/" importedClusterId = false →
  (∀ field, field ∈ [ResourceType acl; ResourceName acl; PatternType acl; Principal acl;
                     Host acl; Operation acl; Permission acl] →
     GoStrings.contains_byte "/" field = false ∧ GoStrings.contains_byte "#" field = false) →
  ResourceType acl ∈ acceptedResourceTypes →
  PatternType acl ∈ acceptedPatternTypes →
  Operation acl ∈ acceptedOperations →
  Permission acl ∈ acceptedPermissions →
  LookupPrincipalIntegerId (Principal acl) (remote w) = (inr integerId, r1) →
  GetKafkaV3Acls
    (CreateKafkaRestClient (kafkaHttpEndpoint env) importedClusterId
       (kafkaApiKey env) (kafkaApiSecret env))
    (getAclsOpts acl integerId) r1 = (ApiOk [matchedAcl], r2) →
  ∃ d',
    kafkaAclImport (inr env) d w
    = ((None, d'),
       mkWorld r2
         (calls w ++
          [CallLookupPrincipal (Principal acl);
           CallGetAcls (CreateKafkaRestClient (kafkaHttpEndpoint env) importedClusterId
                          (kafkaApiKey env) (kafkaApiSecret env))
             (getAclsOpts acl integerId)]))
    ∧ Id d' = Id d
    ∧ IsNewResource d' = true
    ∧ rd_state d' = rd_state d
    ∧ rd_attrs d'
      = mkAclAttrs importedClusterId (acl_ResourceType matchedAcl)
          (acl_ResourceName matchedAcl) (acl_PatternType matchedAcl) (Principal acl)
          (acl_Host matchedAcl) (acl_Operation matchedAcl) (acl_Permission matchedAcl)
          (kafkaHttpEndpoint env) (kafkaApiKey env) (kafkaApiSecret env).
Proof.
  intros Hid Hcluster Hfields Hr Hp Ho Hm Hlook Hget.
  assert (GoStrings.contains_byte "/" (serializeAcl acl) = false) as Hser.
  { apply contains_byte_Join_none; [done|]. intros field Hin. by apply Hfields. }
  assert (GoStrings.Split (Id d) "/" = [importedClusterId; serializeAcl acl]) as Hsplit.
  { rewrite Hid. unfold createKafkaAclId.
    by rewrite append_byte, (Split_sep_app _ _ _ Hcluster), (Split_no_sep _ _ Hser). }
  assert (deserializeAcl (serializeAcl acl) = inr acl) as Hdes.
  { unfold deserializeAcl. rewrite Split_serializeAcl
      by (apply Hfields; apply list_elem_of_In; simpl; tauto).
    rewrite bool_decide_eq_false_2 by (simpl; lia). cbn [nth].
    unfold stringToAclResourceType, stringToAclPatternType, stringToAclOperation,
      stringToAclPermission.
    rewrite !stringInSlice_elem by done. by destruct acl. }
  unfold kafkaAclImport. rewrite Hsplit.
  rewrite bool_decide_eq_false_2 by (simpl; lia). cbn [nth]. rewrite Hdes.
  unfold mbind, M_bind at 1.
  rewrite (readAclAndSetAttributes_matched (MarkNewResource d) _ acl w _ _ _ _ Hlook Hget).
  eexists. split; [done|]. by rewrite Hid.
Qed.

End AclIdentifierProperties.


Lemma acl_import_of_built_id_witness :
  ∃ d',
    fst (kafkaAclImport (inr importEnv) (aclState "" false)
           (startWorld (aclRemote (Some [readOrdersAclData]))))
    = (None, d')
    ∧ Id d' = createKafkaAclId "lkc-1" readOrdersAcl
    ∧ a_principal (rd_attrs d') = "User:sa-abc123".
Proof.
  destruct (acl_import_of_built_id importEnv (aclState "" false)
              (startWorld (aclRemote (Some [readOrdersAclData])))
              "lkc-1" readOrdersAcl "User:1234" (aclRemote (Some [readOrdersAclData]))
              readOrdersAclData (aclRemote (Some [readOrdersAclData])))
    as (d' & Hrun & Hid & _ & _ & Hattrs).
  - reflexivity.
  - reflexivity.
  - intros field Hin. apply list_elem_of_In in Hin. simpl in Hin.
    repeat (destruct Hin as [<-|Hin]; [by split|]). done.
  - apply (bool_decide_unpack _). vm_compute. exact I.
  - apply (bool_decide_unpack _). vm_compute. exact I.
  - apply (bool_decide_unpack _). vm_compute. exact I.
  - apply (bool_decide_unpack _). vm_compute. exact I.
  - reflexivity.
  - reflexivity.
  - exists d'. rewrite Hrun, Hid, Hattrs. by repeat split.
Defined.

(** ** Importing a topic *)

Section TopicImportProperties.
Context {W : Type} `{KafkaRest W}.
Implicit Types (d : TopicResourceData) (w : World W).

(** [readTopicAndSetAttributes] with the topic and its settings fetched: the
    result and the world. *)
Lemma readTopicAndSetAttributes_fetched d c topicName w kafkaTopic r1 data r2 :
  GetKafkaV3Topic c topicName (remote w) = (ApiOk kafkaTopic, r1) →
  ListKafkaV3TopicConfigs c topicName r1 = (ApiOk data, r2) →
  readTopicAndSetAttributes d c topicName w
  = ((None,
      mkResourceData (createKafkaTopicId (clusterId c) topicName) (rd_isNew d) (rd_state d)
        (mkTopicAttrs (clusterId c) (TopicName kafkaTopic) (PartitionsCount kafkaTopic)
           (httpEndpoint c) (collectDynamicConfigs data ∅)
           (clusterApiKey c) (clusterApiSecret c))),
     mkWorld r2 (calls w ++ [CallGetTopic c topicName; CallListTopicConfigs c topicName])).
Proof.
  intros Hget Hlist. unfold readTopicAndSetAttributes. run_remote.
  rewrite Hget. simpl. rewrite Hlist. simpl. by rewrite <- app_assoc.
Qed.

(** The fetch of the topic fails: the result and the world. *)
Lemma readTopicAndSetAttributes_failed d c topicName w resp err r1 :
  GetKafkaV3Topic c topicName (remote w) = (ApiErr resp err, r1) →
  readTopicAndSetAttributes d c topicName w
  = (if ResponseHasExpectedStatusCode resp StatusNotFound && negb (IsNewResource d)
     then (None, SetId "" d) else (Some err, d),
     mkWorld r1 (calls w ++ [CallGetTopic c topicName])).
Proof.
  intros Hget. unfold readTopicAndSetAttributes. run_remote. rewrite Hget. simpl.
  by destruct (_ && _).
Qed.

(** An identifier of two parts is its parts joined by [/]. *)
Lemma Split_two_parts s a b : GoStrings.Split s "/" = [a; b] → s = a +:+ "/" +:+ b.
Proof. intros Hsplit. by rewrite <- (Join_Split s "/"), Hsplit. Qed.

(** X4. Importing a topic identifier of two parts, when the topic and its
    settings can be fetched: the import succeeds after exactly the fetch of
    the topic and the list of its settings, the resource keeps the identifier
    it was imported under and is marked new, and its attributes are the first
    part as cluster ID, the name and partition count that the server gave,
    the server's dynamic settings, and the endpoint and credentials of the
    environment. *)
Theorem topic_import_keeps_identifier env d w importedClusterId topicName
    kafkaTopic r1 data r2 :
  GoStrings.Split (Id d) "/" = [importedClusterId; topicName] →
  GetKafkaV3Topic
    (CreateKafkaRestClient (kafkaHttpEndpoint env) importedClusterId
       (kafkaApiKey env) (kafkaApiSecret env))
    topicName (remote w) = (ApiOk kafkaTopic, r1) →
  ListKafkaV3TopicConfigs
    (CreateKafkaRestClient (kafkaHttpEndpoint env) importedClusterId
       (kafkaApiKey env) (kafkaApiSecret env))
    topicName r1 = (ApiOk data, r2) →
  ∃ d',
    kafkaTopicImport (inr env) d w
    = ((None, d'),
       mkWorld r2
         (calls w ++
          [CallGetTopic (CreateKafkaRestClient (kafkaHttpEndpoint env) importedClusterId
                           (kafkaApiKey env) (kafkaApiSecret env)) topicName;
           CallListTopicConfigs
             (CreateKafkaRestClient (kafkaHttpEndpoint env) importedClusterId
                (kafkaApiKey env) (kafkaApiSecret env)) topicName]))
    ∧ Id d' = Id d
    ∧ IsNewResource d' = true
    ∧ rd_state d' = rd_state d
    ∧ rd_attrs d'
      = mkTopicAttrs importedClusterId (TopicName kafkaTopic) (PartitionsCount kafkaTopic)
          (kafkaHttpEndpoint env) (collectDynamicConfigs data ∅)
          (kafkaApiKey env) (kafkaApiSecret env).
Proof.
  intros Hsplit Hget Hlist. unfold kafkaTopicImport. rewrite Hsplit.
  rewrite bool_decide_eq_false_2 by (simpl; lia). cbn [nth].
  unfold mbind, M_bind at 1.
  rewrite (readTopicAndSetAttributes_fetched (MarkNewResource d) _ _ w _ _ _ _ Hget Hlist).
  eexists. split; [done|]. split; [|done].
  simpl. unfold createKafkaTopicId. symmetry. by apply Split_two_parts.
Qed.

(** X5. An import never drops the resource: when the fetch of the topic
    fails, with a 404 as with any other response, the import of a
    well-formed identifier returns the import error that wraps the error of
    the fetch, after that one call, and the identifier stays as it was. *)
Theorem topic_import_fetch_failure_is_an_error env d w importedClusterId topicName
    resp err r1 :
  GoStrings.Split (Id d) "/" = [importedClusterId; topicName] →
  GetKafkaV3Topic
    (CreateKafkaRestClient (kafkaHttpEndpoint env) importedClusterId
       (kafkaApiKey env) (kafkaApiSecret env))
    topicName (remote w) = (ApiErr resp err, r1) →
  kafkaTopicImport (inr env) d w
  = ((Some (ErrTopicImport (Id d) (Some (Descriptive err))), MarkNewResource d),
     mkWorld r1
       (calls w ++
        [CallGetTopic (CreateKafkaRestClient (kafkaHttpEndpoint env) importedClusterId
                         (kafkaApiKey env) (kafkaApiSecret env)) topicName])).
Proof.
  intros Hsplit Hget. unfold kafkaTopicImport. rewrite Hsplit.
  rewrite bool_decide_eq_false_2 by (simpl; lia). cbn [nth].
  unfold mbind, M_bind at 1.
  rewrite (readTopicAndSetAttributes_failed (MarkNewResource d) _ _ w _ _ _ Hget).
  simpl. by rewrite andb_false_r.
Qed.

End TopicImportProperties.

Lemma topic_import_keeps_identifier_witness :
  ∃ d',
    fst (kafkaTopicImport (inr importEnv) (ordersState false) (startWorld (ordersRemote true)))
    = (None, d')
    ∧ Id d' = "lkc-1/orders"
    ∧ t_config (rd_attrs d') !! "retention.ms" = Some "1"
    ∧ t_config (rd_attrs d') !! "cleanup.policy" = None.
Proof.
  destruct (topic_import_keeps_identifier importEnv (ordersState false)
              (startWorld (ordersRemote true)) "lkc-1" "orders"
              (mkTopicData "orders" 6) (ordersRemote true) ordersConfigs (ordersRemote true))
    as (d' & Hrun & Hid & _ & _ & Hattrs); [reflexivity..|].
  exists d'. rewrite Hrun, Hid, Hattrs. by repeat split.
Defined.

Lemma topic_import_fetch_failure_is_an_error_witness :
  fst (kafkaTopicImport (inr importEnv) (goneState false) (startWorld (ordersRemote true)))
  = (Some (ErrTopicImport "lkc-1/gone" (Some (Descriptive (RemoteError "404 Not Found")))),
     MarkNewResource (goneState false)).
Proof.
  rewrite (topic_import_fetch_failure_is_an_error importEnv (goneState false)
             (startWorld (ordersRemote true)) "lkc-1" "gone"
             (Some (mkResponse StatusNotFound)) (RemoteError "404 Not Found")
             (ordersRemote true)); reflexivity.
Defined.

(** ** Reading a topic, further *)

Lemma collectDynamicConfigs_app data1 data2 config :
  collectDynamicConfigs (data1 ++ data2) config
  = collectDynamicConfigs data2 (collectDynamicConfigs data1 config).
Proof.
  revert config. induction data1 as [|e data1 IH]; intros config; [done|].
  simpl. destruct (cfg_Value e); [case_bool_decide|]; apply IH.
Qed.

(** Entries that do not set [name] leave its value in the map. *)
Lemma collectDynamicConfigs_untouched data config name value :
  (∀ e, e ∈ data → cfg_Name e = name →
     cfg_Source e ≠ CONFIGSOURCE_DYNAMIC_TOPIC_CONFIG ∨ cfg_Value e = None) →
  config !! name = Some value →
  collectDynamicConfigs data config !! name = Some value.
Proof.
  revert config. induction data as [|e data IH]; intros config Hall Hcfg; [done|].
  assert (∀ e', e' ∈ data → cfg_Name e' = name →
            cfg_Source e' ≠ CONFIGSOURCE_DYNAMIC_TOPIC_CONFIG ∨ cfg_Value e' = None)
    as Hrest by (intros e' Hin; apply Hall; by right).
  simpl. destruct (cfg_Value e) as [v|] eqn:Hv; [|by apply IH].
  case_bool_decide as Hdyn; [|by apply IH].
  apply IH; [done|].
  destruct (decide (cfg_Name e = name)) as [Hname|Hname].
  - destruct (Hall e) as [Hne|Hnone]; [left|done|done|congruence].
  - by rewrite lookup_insert_ne.
Qed.

Section TopicReadFurther.
Context {W : Type} `{KafkaRest W}.
Implicit Types (d : TopicResourceData) (w : World W).

(** X6. A topic Read that fetches the topic and its settings makes exactly
    these two calls, in this order, and succeeds. The identifier it sets is
    built from the cluster ID and the topic name of the state it started
    from, while the topic name and partition count attributes take what the
    server answered; the cluster ID, endpoint and credentials (so the client
    of the next operation), the prior state and the new-resource mark are as
    before. *)
Theorem topic_read_success_state d w kafkaTopic r1 data r2 :
  GetKafkaV3Topic (topicClient d) (t_topic_name (rd_attrs d)) (remote w)
    = (ApiOk kafkaTopic, r1) →
  ListKafkaV3TopicConfigs (topicClient d) (t_topic_name (rd_attrs d)) r1
    = (ApiOk data, r2) →
  ∃ d',
    kafkaTopicRead d w
    = (([], d'),
       mkWorld r2
         (calls w ++ [CallGetTopic (topicClient d) (t_topic_name (rd_attrs d));
                      CallListTopicConfigs (topicClient d) (t_topic_name (rd_attrs d))]))
    ∧ Id d' = createKafkaTopicId (t_kafka_cluster_id (rd_attrs d)) (t_topic_name (rd_attrs d))
    ∧ t_topic_name (rd_attrs d') = TopicName kafkaTopic
    ∧ t_partitions_count (rd_attrs d') = PartitionsCount kafkaTopic
    ∧ topicClient d' = topicClient d
    ∧ rd_state d' = rd_state d
    ∧ IsNewResource d' = IsNewResource d.
Proof.
  intros Hget Hlist. unfold kafkaTopicRead. unfold mbind, M_bind at 1.
  rewrite (readTopicAndSetAttributes_fetched d _ _ w _ _ _ _ Hget Hlist).
  eexists. split; [done|]. by repeat split.
Qed.

(** X7. When the topic is fetched but the list of its settings fails, the
    Read returns the error of the list (wrapped as a load error), whatever
    the status of the response (a 404 there does not clear the identifier).
    The cluster ID, topic name and partition count have been written by
    then; the configuration map, the credentials, the endpoint and the
    identifier are as before. *)
Theorem topic_read_settings_failure d w kafkaTopic r1 resp err r2 :
  GetKafkaV3Topic (topicClient d) (t_topic_name (rd_attrs d)) (remote w)
    = (ApiOk kafkaTopic, r1) →
  ListKafkaV3TopicConfigs (topicClient d) (t_topic_name (rd_attrs d)) r1
    = (ApiErr resp err, r2) →
  kafkaTopicRead d w
  = (([Descriptive (ErrTopicLoadConfigs (t_topic_name (rd_attrs d)) (Some (Descriptive err)))],
      mkResourceData (rd_id d) (rd_isNew d) (rd_state d)
        (mkTopicAttrs (t_kafka_cluster_id (rd_attrs d)) (TopicName kafkaTopic)
           (PartitionsCount kafkaTopic) (t_http_endpoint (rd_attrs d))
           (t_config (rd_attrs d)) (t_credentials_key (rd_attrs d))
           (t_credentials_secret (rd_attrs d)))),
     mkWorld r2
       (calls w ++ [CallGetTopic (topicClient d) (t_topic_name (rd_attrs d));
                    CallListTopicConfigs (topicClient d) (t_topic_name (rd_attrs d))])).
Proof.
  intros Hget Hlist. unfold kafkaTopicRead, readTopicAndSetAttributes. run_remote.
  rewrite Hget. simpl. rewrite Hlist. simpl. by rewrite <- app_assoc.
Qed.

(** X8. When the server lists a setting name more than once, the map that
    [loadTopicConfigs] returns holds, for that name, the value of the last
    entry that has the source [DYNAMIC_TOPIC_CONFIG] and a value. *)
Theorem loadTopicConfigs_last_entry_wins d c topicName w before e after value r1 :
  ListKafkaV3TopicConfigs c topicName (remote w) = (ApiOk (before ++ e :: after), r1) →
  cfg_Source e = CONFIGSOURCE_DYNAMIC_TOPIC_CONFIG →
  cfg_Value e = Some value →
  (∀ e', e' ∈ after → cfg_Name e' = cfg_Name e →
     cfg_Source e' ≠ CONFIGSOURCE_DYNAMIC_TOPIC_CONFIG ∨ cfg_Value e' = None) →
  ∃ config,
    fst (loadTopicConfigs d c topicName w) = inr config
    ∧ config !! cfg_Name e = Some value.
Proof.
  intros Hlist Hsrc Hv Hafter. unfold loadTopicConfigs. run_remote. rewrite Hlist. simpl.
  eexists. split; [done|].
  rewrite collectDynamicConfigs_app. simpl.
  rewrite Hv, bool_decide_eq_true_2 by done.
  apply collectDynamicConfigs_untouched; [done|]. apply lookup_insert_eq.
Qed.

End TopicReadFurther.

Lemma topic_read_success_state_witness :
  ∃ d',
    fst (kafkaTopicRead (ordersState false) (startWorld (ordersRemote true))) = ([], d')
    ∧ Id d' = "lkc-1/orders"
    ∧ topicClient d' = topicClient (ordersState false).
Proof.
  destruct (topic_read_success_state (ordersState false) (startWorld (ordersRemote true))
              (mkTopicData "orders" 6) (ordersRemote true) ordersConfigs (ordersRemote true))
    as (d' & Hrun & Hid & _ & _ & Hclient & _); [reflexivity..|].
  exists d'. rewrite Hrun. by repeat split.
Defined.

(** ** Updating a topic, further *)

Lemma HasChangesExcept_false {F : Type} `{Schema F} (d : ResourceData F) keys :
  (∀ key, key ∈ schema_keys → key ∉ keys → HasChange d key = false) →
  HasChangesExcept d keys = false.
Proof.
  intros Hall. unfold HasChangesExcept. apply not_true_iff_false.
  intros (key & Hin%list_elem_of_In & Hch)%existsb_exists.
  apply andb_true_iff in Hch as [Hout%negb_true_iff%bool_decide_eq_false Hch].
  by rewrite (Hall key Hin Hout) in Hch.
Qed.

Section TopicUpdateFurther.
Context {W : Type} `{KafkaRest W} `{MapRange}.
Implicit Types (d : TopicResourceData) (w : World W).

(** X9. A topic update in which no attribute but the credentials block has a
    change succeeds without any remote call: the world is as it was. *)
Theorem topic_update_of_credentials_alone_is_local d w :
  (∀ key, key ≠ paramCredentials → HasChange d key = false) →
  kafkaTopicUpdate d w = ([], w).
Proof.
  intros Hsame. unfold kafkaTopicUpdate.
  rewrite HasChangesExcept_false.
  - by rewrite (Hsame paramConfigs).
  - intros key _ Hout. apply Hsame. intros ->. apply Hout. left.
Qed.

(** The update up to its remote call: with only the configuration map
    changed, no setting removed and every added or changed setting editable,
    the two loops end with the batch of the changed settings. *)
Lemma kafkaTopicUpdate_submits d w :
  HasChangesExcept d [paramCredentials; paramConfigs] = false →
  t_config (rd_state d) ≠ t_config (rd_attrs d) →
  (∀ name, is_Some (t_config (rd_state d) !! name) →
           is_Some (t_config (rd_attrs d) !! name)) →
  (∀ name value,
     t_config (rd_attrs d) !! name = Some value →
     t_config (rd_state d) !! name ≠ Some value →
     name ∈ editableTopicSettings) →
  kafkaTopicUpdate d w
  = (sent ← executeKafkaTopicUpdate (topicClient d) (t_topic_name (rd_attrs d))
              (changedSettings (t_config (rd_state d)) (range (t_config (rd_attrs d))));
     match sent with
     | ApiErr _ err => mret (diag_FromErr (createDescriptiveError (Some err)))
     | ApiOk _ =>
         loaded ← loadTopicConfigs d (topicClient d) (t_topic_name (rd_attrs d));
         match loaded with
         | inl err => mret (diag_FromErr (createDescriptiveError (Some err)))
         | inr actualTopicSettings =>
             let '(_, outdatedTopicSettings) :=
               compareTopicSettings
                 (changedSettings (t_config (rd_state d)) (range (t_config (rd_attrs d))))
                 actualTopicSettings [] [] in
             let _ := outdatedTopicSettingsDiagnostics (Id d) outdatedTopicSettings in
             mret []
         end
     end) w.
Proof.
  intros Hexcept Hne Hkept Hed. unfold kafkaTopicUpdate.
  rewrite Hexcept, (HasChange_configs d Hne). cbn [extractOldAndNewTopicSettings].
  rewrite verifyNoTopicSettingRemoved_kept
    by (intros k v Hin%range_elem; apply Hkept; by exists v).
  rewrite (collectTopicSettingsUpdateBatch_editable (Id d))
    by (intros k v Hin%range_elem; by apply Hed).
  done.
Qed.

(** X10. When the server refuses the batch of a topic update, the update
    returns the error of that call and stops: the batch is the only call it
    has made, the settings are not read back. When the batch is accepted but
    the settings cannot be read back, the update returns the error of the
    list call, wrapped as a load error. *)
Theorem topic_update_remote_failures d w :
  HasChangesExcept d [paramCredentials; paramConfigs] = false →
  t_config (rd_state d) ≠ t_config (rd_attrs d) →
  (∀ name, is_Some (t_config (rd_state d) !! name) →
           is_Some (t_config (rd_attrs d) !! name)) →
  (∀ name value,
     t_config (rd_attrs d) !! name = Some value →
     t_config (rd_state d) !! name ≠ Some value →
     name ∈ editableTopicSettings) →
  let c := topicClient d in
  let topicName := t_topic_name (rd_attrs d) in
  let batch := changedSettings (t_config (rd_state d)) (range (t_config (rd_attrs d))) in
  (∀ resp err r1,
     UpdateKafkaV3TopicConfigBatch c topicName batch (remote w) = (ApiErr resp err, r1) →
     kafkaTopicUpdate d w
     = ([Descriptive err],
        mkWorld r1 (calls w ++ [CallUpdateTopicConfigBatch c topicName batch])))
  ∧ (∀ r1 resp err r2,
       UpdateKafkaV3TopicConfigBatch c topicName batch (remote w) = (ApiOk (), r1) →
       ListKafkaV3TopicConfigs c topicName r1 = (ApiErr resp err, r2) →
       kafkaTopicUpdate d w
       = ([Descriptive (ErrTopicLoadConfigs topicName (Some (Descriptive err)))],
          mkWorld r2 (calls w ++ [CallUpdateTopicConfigBatch c topicName batch;
                                  CallListTopicConfigs c topicName]))).
Proof.
  intros Hexcept Hne Hkept Hed c topicName batch.
  rewrite (kafkaTopicUpdate_submits d w Hexcept Hne Hkept Hed).
  fold c topicName batch. split.
  - intros resp err r1 Hupd. run_remote. by rewrite Hupd.
  - intros r1 resp err r2 Hupd Hlist. run_remote. rewrite Hupd. simpl.
    rewrite Hlist. simpl. by rewrite <- app_assoc.
Qed.

End TopicUpdateFurther.

(** The third loop, from any two lists to append to. *)
Lemma compareTopicSettings_acc batch actual updated0 outdated0 :
  let result := compareTopicSettings batch actual updated0 outdated0 in
  (∀ name, name ∈ result.2 ↔
     name ∈ outdated0
     ∨ ∃ value actualValue, mkAlterConfig name (Some value) ∈ batch
         ∧ actual !! name = Some actualValue ∧ actualValue ≠ value)
  ∧ (∀ name, name ∈ result.1 ↔
       name ∈ updated0
       ∨ ∃ value, mkAlterConfig name (Some value) ∈ batch
           ∧ (actual !! name = None ∨ actual !! name = Some value))
  ∧ (length result.1 + length result.2
     = length updated0 + length outdated0
       + length (filter (λ v, is_Some (Value v)) batch))%nat.
Proof.
  revert updated0 outdated0. induction batch as [|[name0 value0] batch IH];
    intros updated0 outdated0; simpl.
  - split; [|split; [|lia]]; intros name; split; try tauto;
      by intros [?|(? & ? & []%elem_of_nil & _)] || intros [?|(? & []%elem_of_nil & _)].
  - rewrite filter_cons. cbn [Value].
    destruct value0 as [expected|]; simpl.
    + destruct (actual !! name0) as [actualValue|] eqn:Hact;
        [case_bool_decide as Hdiff|];
        destruct (IH updated0 outdated0) as (_ & _ & _);
        match goal with
        | |- context [compareTopicSettings batch actual ?u ?o] =>
            destruct (IH u o) as (Hout & Hupd & Hlen)
        end;
        (split; [|split]).
      * intros name. rewrite Hout, elem_of_app, list_elem_of_singleton. split.
        -- intros [[?| ->]|(v & a & Hin & ?)]; [by left| |].
           ++ right. exists expected, actualValue. split; [left|done].
           ++ right. exists v, a. split; [by right|done].
        -- intros [?|(v & a & [Heq|Hin]%elem_of_cons & Ha & Hne)]; [by left;left| |].
           ++ injection Heq as -> ->. by left; right.
           ++ right. by exists v, a.
      * intros name. rewrite Hupd. split.
        -- intros [?|(v & Hin & ?)]; [by left|]. right. exists v. split; [by right|done].
        -- intros [?|(v & [Heq|Hin]%elem_of_cons & Hcase)]; [by left| |].
           ++ injection Heq as -> ->. destruct Hcase; congruence.
           ++ right. by exists v.
      * rewrite Hlen, length_app. simpl. lia.
      * intros name. rewrite Hout. split.
        -- intros [?|(v & a & Hin & ?)]; [by left|]. right. exists v, a. split; [by right|done].
        -- intros [?|(v & a & [Heq|Hin]%elem_of_cons & Ha & Hne)]; [by left| |].
           ++ injection Heq as -> ->. congruence.
           ++ right. by exists v, a.
      * intros name. rewrite Hupd, elem_of_app, list_elem_of_singleton. split.
        -- intros [[?| ->]|(v & Hin & ?)]; [by left| |].
           ++ right. exists expected. split; [left|]. right. by rewrite Hact, Hdiff.
           ++ right. exists v. split; [by right|done].
        -- intros [?|(v & [Heq|Hin]%elem_of_cons & Hcase)]; [by left;left| |].
           ++ injection Heq as -> ->. by left; right.
           ++ right. by exists v.
      * rewrite Hlen, length_app. simpl. lia.
      * intros name. rewrite Hout. split.
        -- intros [?|(v & a & Hin & ?)]; [by left|]. right. exists v, a. split; [by right|done].
        -- intros [?|(v & a & [Heq|Hin]%elem_of_cons & Ha & Hne)]; [by left| |].
           ++ injection Heq as -> ->. congruence.
           ++ right. by exists v, a.
      * intros name. rewrite Hupd, elem_of_app, list_elem_of_singleton. split.
        -- intros [[?| ->]|(v & Hin & ?)]; [by left| |].
           ++ right. exists expected. split; [left|by left].
           ++ right. exists v. split; [by right|done].
        -- intros [?|(v & [Heq|Hin]%elem_of_cons & Hcase)]; [by left;left| |].
           ++ injection Heq as -> ->. by left; right.
           ++ right. by exists v.
      * rewrite Hlen, length_app. simpl. lia.
    + destruct (IH updated0 outdated0) as (Hout & Hupd & Hlen).
      split; [|split; [|done]].
      * intros name. rewrite Hout. split.
        -- intros [?|(v & a & Hin & ?)]; [by left|]. right. exists v, a. split; [by right|done].
        -- intros [?|(v & a & [Heq|Hin]%elem_of_cons & ?)]; [by left|done|].
           right. by exists v, a.
      * intros name. rewrite Hupd. split.
        -- intros [?|(v & Hin & ?)]; [by left|]. right. exists v. split; [by right|done].
        -- intros [?|(v & [Heq|Hin]%elem_of_cons & ?)]; [by left|done|].
           right. by exists v.
Qed.

(** X11. The comparison after a topic update sorts the settings of the batch
    that carry a value into two lists: a setting is outdated when the map
    read back holds its name with another value, and updated when the map
    read back holds its name with the requested value or does not hold its
    name at all; the two lists together are as long as the batch has settings
    with a value. *)
Theorem topic_update_comparison_sorts_the_batch
    (batch : list AlterConfigBatchRequestDataData) (actual : gmap string string) :
  let result := compareTopicSettings batch actual [] [] in
  (∀ name, name ∈ result.2 ↔
     ∃ value actualValue, mkAlterConfig name (Some value) ∈ batch
       ∧ actual !! name = Some actualValue ∧ actualValue ≠ value)
  ∧ (∀ name, name ∈ result.1 ↔
       ∃ value, mkAlterConfig name (Some value) ∈ batch
         ∧ (actual !! name = None ∨ actual !! name = Some value))
  ∧ (length result.1 + length result.2
     = length (filter (λ v, is_Some (Value v)) batch))%nat.
Proof.
  intros result. destruct (compareTopicSettings_acc batch actual [] []) as (Hout & Hupd & Hlen).
  fold result in Hout, Hupd, Hlen. split; [|split; [|done]].
  - intros name. rewrite Hout. split; [|by right].
    by intros [[]%elem_of_nil|?].
  - intros name. rewrite Hupd. split; [|by right].
    by intros [[]%elem_of_nil|?].
Qed.

(** ** Reading an ACL, further *)

Section AclReadFurther.
Context {W : Type} `{KafkaRest W}.
Implicit Types (d : AclResourceData) (w : World W).

(** X12. When the principal of an ACL Read cannot be resolved to its integer
    ID, the Read returns that error after the lookup alone: the ACLs are not
    listed, and [d] is as it was. *)
Theorem acl_read_unresolved_principal d w acl err r1 :
  extractAcl d = inr acl →
  GoStrings.HasPrefix (Principal acl) "User:sa-"
  || GoStrings.HasPrefix (Principal acl) "User:u-" = true →
  LookupPrincipalIntegerId (Principal acl) (remote w) = (inl err, r1) →
  kafkaAclRead d w
  = (([Descriptive err], d),
     mkWorld r1 (calls w ++ [CallLookupPrincipal (Principal acl)])).
Proof.
  intros Hacl Hprefix Hlook. unfold kafkaAclRead. rewrite Hacl, Hprefix. simpl.
  unfold readAclAndSetAttributes. run_remote. by rewrite Hlook.
Qed.

(** X13. An ACL Read that matches one ACL makes exactly two calls, the lookup
    of the principal and then the list of the ACLs, and the list request
    carries the seven fields of the state with the integer form of the
    principal in place of the one in state. The identifier it sets is built
    from the cluster ID and the seven fields of the state it started from,
    not from the matched ACL. *)
Theorem acl_read_success_calls_and_identifier d w acl integerId r1 matchedAcl r2 :
  extractAcl d = inr acl →
  GoStrings.HasPrefix (Principal acl) "User:sa-"
  || GoStrings.HasPrefix (Principal acl) "User:u-" = true →
  LookupPrincipalIntegerId (Principal acl) (remote w) = (inr integerId, r1) →
  GetKafkaV3Acls (aclClient d) (getAclsOpts acl integerId) r1 = (ApiOk [matchedAcl], r2) →
  ∃ d',
    kafkaAclRead d w
    = (([], d'),
       mkWorld r2
         (calls w ++
          [CallLookupPrincipal (a_principal (rd_attrs d));
           CallGetAcls (aclClient d)
             (mkGetKafkaV3AclsOpts (a_resource_type (rd_attrs d))
                (a_resource_name (rd_attrs d)) (a_pattern_type (rd_attrs d)) integerId
                (a_host (rd_attrs d)) (a_operation (rd_attrs d))
                (a_permission (rd_attrs d)))]))
    ∧ Id d'
      = a_kafka_cluster_id (rd_attrs d) +:+ "/" +:+
        GoStrings.Join [a_resource_type (rd_attrs d); a_resource_name (rd_attrs d);
                        a_pattern_type (rd_attrs d); a_principal (rd_attrs d);
                        a_host (rd_attrs d); a_operation (rd_attrs d);
                        a_permission (rd_attrs d)] "#"
    ∧ rd_state d' = rd_state d
    ∧ IsNewResource d' = IsNewResource d.
Proof.
  intros Hacl Hprefix Hlook Hget. unfold kafkaAclRead. rewrite Hacl, Hprefix. simpl.
  unfold mbind, M_bind at 1.
  rewrite (readAclAndSetAttributes_matched d _ acl w _ _ _ _ Hlook Hget).
  assert (acl = mkAcl (a_resource_type (rd_attrs d)) (a_resource_name (rd_attrs d))
                  (a_pattern_type (rd_attrs d)) (a_principal (rd_attrs d))
                  (a_host (rd_attrs d)) (a_operation (rd_attrs d))
                  (a_permission (rd_attrs d))) as ->.
  { revert Hacl. unfold extractAcl, stringToAclResourceType, stringToAclPatternType,
      stringToAclOperation, stringToAclPermission.
    repeat (destruct (stringInSlice _ _); [|done]). by intros [= <-]. }
  eexists. split; [done|]. by repeat split.
Qed.

End AclReadFurther.

(** ** The further properties at concrete inputs *)

Lemma topic_read_settings_failure_witness :
  fst (kafkaTopicRead (ordersState false) (mkWorld settingsOutage []))
  = ([Descriptive (ErrTopicLoadConfigs "orders"
                     (Some (Descriptive (RemoteError "404 Not Found"))))],
     ordersState false).
Proof.
  rewrite (topic_read_settings_failure (ordersState false) (mkWorld settingsOutage [])
             (mkTopicData "orders" 6) settingsOutage (Some (mkResponse StatusNotFound))
             (RemoteError "404 Not Found") settingsOutage); reflexivity.
Defined.

Lemma loadTopicConfigs_last_entry_wins_witness :
  ∃ config,
    fst (loadTopicConfigs (ordersState false) (topicClient (ordersState false)) "orders"
           (startWorld repeatedRemote)) = inr config
    ∧ config !! "retention.ms" = Some "2".
Proof.
  apply (loadTopicConfigs_last_entry_wins (ordersState false) (topicClient (ordersState false))
           "orders" (startWorld repeatedRemote)
           [dynamic "retention.ms" "1"] (dynamic "retention.ms" "2")
           [mkTopicConfigData "retention.ms" (Some "3") "DEFAULT_CONFIG"] "2" repeatedRemote).
  - reflexivity.
  - reflexivity.
  - reflexivity.
  - intros e' ->%list_elem_of_singleton _. left. discriminate.
Defined.

Lemma topic_update_of_credentials_alone_is_local_witness :
  HasChange credentialsUpdate paramCredentials = true
  ∧ kafkaTopicUpdate credentialsUpdate (startWorld (ordersRemote true))
    = ([], startWorld (ordersRemote true)).
Proof.
  split; [reflexivity|].
  apply (topic_update_of_credentials_alone_is_local credentialsUpdate
           (startWorld (ordersRemote true))).
  intros key Hkey. destruct key; first [reflexivity | done].
Defined.

Lemma topic_update_remote_failures_witness :
  kafkaTopicUpdate goneRetentionUpdate (startWorld (ordersRemote true))
  = ([Descriptive (RemoteError "404 Not Found")],
     mkWorld (ordersRemote true)
       [CallUpdateTopicConfigBatch (topicClient goneRetentionUpdate) "gone"
          [mkAlterConfig "retention.ms" (Some "2")]])
  ∧ kafkaTopicUpdate retentionUpdate (mkWorld settingsOutage [])
    = ([Descriptive (ErrTopicLoadConfigs "orders"
                       (Some (Descriptive (RemoteError "404 Not Found"))))],
       mkWorld settingsOutage
         [CallUpdateTopicConfigBatch (topicClient retentionUpdate) "orders"
            [mkAlterConfig "retention.ms" (Some "2")];
          CallListTopicConfigs (topicClient retentionUpdate) "orders"]).
Proof.
  split.
  - edestruct (topic_update_remote_failures goneRetentionUpdate
                 (startWorld (ordersRemote true))) as [Hrefused _].
    + reflexivity.
    + intros Heq. apply (f_equal (λ m : gmap string string, m !! "retention.ms")) in Heq.
      vm_compute in Heq. discriminate.
    + intros name [v Hv]. unfold goneRetentionUpdate, goneAttrs in Hv.
      cbn [t_config rd_state] in Hv. by rewrite lookup_empty in Hv.
    + intros name value Hv _. unfold goneRetentionUpdate in Hv.
      cbn [t_config rd_attrs] in Hv. apply lookup_singleton_Some in Hv as [<- _].
      apply (bool_decide_unpack _). vm_compute. exact I.
    + rewrite (Hrefused (Some (mkResponse StatusNotFound)) (RemoteError "404 Not Found")
                 (ordersRemote true)); reflexivity.
  - edestruct (topic_update_remote_failures retentionUpdate
                 (mkWorld settingsOutage [])) as [_ Hunread].
    + reflexivity.
    + intros Heq. apply (f_equal (λ m : gmap string string, m !! "retention.ms")) in Heq.
      vm_compute in Heq. discriminate.
    + intros name [v Hv]. unfold retentionUpdate, ordersAttrs in Hv.
      cbn [t_config rd_state] in Hv.
      apply lookup_singleton_Some in Hv as [<- _]. vm_compute. by eexists.
    + intros name value Hv _. unfold retentionUpdate, ordersAttrs in Hv.
      cbn [t_config rd_attrs] in Hv. apply lookup_singleton_Some in Hv as [<- _].
      apply (bool_decide_unpack _). vm_compute. exact I.
    + rewrite (Hunread settingsOutage (Some (mkResponse StatusNotFound))
                 (RemoteError "404 Not Found") settingsOutage); reflexivity.
Defined.

Lemma acl_read_unresolved_principal_witness :
  kafkaAclRead (aclState "User:sa-zzz999" false) (startWorld (aclRemote (Some [])))
  = (([Descriptive (RemoteError "unknown principal")], aclState "User:sa-zzz999" false),
     mkWorld (aclRemote (Some [])) [CallLookupPrincipal "User:sa-zzz999"]).
Proof.
  apply (acl_read_unresolved_principal (aclState "User:sa-zzz999" false)
           (startWorld (aclRemote (Some [])))
           (mkAcl "TOPIC" "orders" "LITERAL" "User:sa-zzz999" "*" "READ" "ALLOW")
           (RemoteError "unknown principal") (aclRemote (Some []))); reflexivity.
Defined.

Lemma acl_read_success_calls_and_identifier_witness :
  ∃ d',
    fst (kafkaAclRead (aclState "User:sa-abc123" false)
           (startWorld (aclRemote (Some [readOrdersAclData])))) = ([], d')
    ∧ Id d' = "lkc-1/TOPIC#orders#LITERAL#User:sa-abc123#*#READ#ALLOW".
Proof.
  destruct (acl_read_success_calls_and_identifier (aclState "User:sa-abc123" false)
              (startWorld (aclRemote (Some [readOrdersAclData])))
              readOrdersAcl "User:1234" (aclRemote (Some [readOrdersAclData]))
              readOrdersAclData (aclRemote (Some [readOrdersAclData])))
    as (d' & Hrun & Hid & _); [reflexivity..|].
  exists d'. rewrite Hrun, Hid. by split.
Defined.

(** ** Creating a topic *)

Lemma fillConfigs_filled entries filled :
  fillConfigs entries (length filled)
    (filled ++ replicate (length entries) (mkCreateTopicConfig "" None))
  = filled ++ ((λ kv, mkCreateTopicConfig kv.1 (Some kv.2)) <$> entries).
Proof.
  revert filled. induction entries as [|[name value] entries IH]; intros filled; [done|].
  simpl. rewrite insert_app_r_alt by lia. rewrite Nat.sub_diag. simpl.
  rewrite (cons_middle _ filled), app_assoc.
  replace (S (length filled)) with (length (filled ++ [mkCreateTopicConfig name (Some value)]))
    by (rewrite length_app; simpl; lia).
  rewrite IH. by rewrite <- app_assoc.
Qed.

Lemma int32_unchanged (n : Z) : int32 n = n ↔ - 2 ^ 31 ≤ n < 2 ^ 31.
Proof.
  unfold int32. split.
  - intros Heq. pose proof (Z.mod_pos_bound (n + 2 ^ 31) (2 ^ 32)). lia.
  - intros Hrange. rewrite Z.mod_small by lia. lia.
Qed.

Section TopicCreateProperties.
Context {W : Type} `{KafkaRest W} `{KafkaRestWrites W} `{MapRange}.
Implicit Types (d : TopicResourceData) (w : World (Journaled W)).

Lemma extractConfigs_entries (configs : gmap string string) :
  extractConfigs configs
  = (λ kv, mkCreateTopicConfig kv.1 (Some kv.2)) <$> range configs.
Proof.
  unfold extractConfigs.
  rewrite <- (length_map_to_list configs), <- (Permutation_length (range_perm configs)).
  apply (fillConfigs_filled (range configs) []).
Qed.

(** X14. [extractConfigs] fills every slot of its slice: the result has one
    entry per setting of the map, no name twice, and its entries are exactly
    the settings of the map, each with its value (no zero value of the
    allocation is left). *)
Theorem extractConfigs_holds_the_settings (configs : gmap string string) :
  length (extractConfigs configs) = size configs
  ∧ NoDup (create_Name <$> extractConfigs configs)
  ∧ ∀ cfg, cfg ∈ extractConfigs configs ↔
      ∃ name value, cfg = mkCreateTopicConfig name (Some value)
        ∧ configs !! name = Some value.
Proof.
  rewrite extractConfigs_entries. split; [|split].
  - by rewrite length_fmap, (Permutation_length (range_perm configs)), length_map_to_list.
  - rewrite <- list_fmap_compose.
    rewrite (fmap_Permutation _ _ _ (range_perm configs)).
    apply (NoDup_fst_map_to_list configs).
  - intros cfg. rewrite list_elem_of_fmap. split.
    + intros [[name value] [-> Hin]]. exists name, value. split; [done|].
      rewrite range_perm in Hin. by apply elem_of_map_to_list in Hin.
    + intros (name & value & -> & Hget). exists (name, value). split; [done|].
      rewrite range_perm. by apply elem_of_map_to_list.
Qed.

(** A call that does not write, on the remote side with its journal. *)
Lemma passJournal_eq {A} (method : W → A * W) (j : Journaled W) a r :
  method (served j) = (a, r) → passJournal method j = (a, mkJournaled r (writes j)).
Proof. intros Hrun. unfold passJournal. by rewrite Hrun. Qed.

(** A topic Read leaves the journal of the writes as it is. *)
Lemma kafkaTopicRead_writes d w :
  writes (remote (snd (kafkaTopicRead d w))) = writes (remote w).
Proof.
  unfold kafkaTopicRead, readTopicAndSetAttributes. run_remote. unfold passJournal.
  destruct (GetKafkaV3Topic _ _ (served (remote w))) as [[kafkaTopic|resp err] r1]; simpl.
  - destruct (ListKafkaV3TopicConfigs _ _ r1) as [[data|resp err] r2]; done.
  - by destruct (_ && _).
Qed.

(** X15. A topic create sends one write, whatever it answers and whatever
    the Read after it does: the create request for the topic name of [d],
    with the settings of its configuration map and with its partition count
    converted to 32 bits. The count in the request is the count of [d]
    exactly when that lies between [-2^31] and [2^31 - 1]. *)
Theorem topic_create_request d w :
  writes (remote (snd (kafkaTopicCreate d w)))
  = writes (remote w)
    ++ [WriteCreateTopic (topicClient d)
          (mkCreateTopicRequestData (t_topic_name (rd_attrs d))
             (int32 (t_partitions_count (rd_attrs d)))
             (extractConfigs (t_config (rd_attrs d))))]
  ∧ (int32 (t_partitions_count (rd_attrs d)) = t_partitions_count (rd_attrs d)
     ↔ - 2 ^ 31 ≤ t_partitions_count (rd_attrs d) < 2 ^ 31).
Proof.
  split; [|apply int32_unchanged].
  unfold kafkaTopicCreate, executeKafkaTopicCreate, remote_write.
  unfold mbind, M_bind at 1.
  destruct (CreateKafkaV3Topic _ _ (served (remote w))) as [[created|resp err] r1]; [|done].
  unfold mbind, M_bind at 1.
  match goal with
  | |- context [kafkaTopicRead ?d' ?w'] =>
      pose proof (kafkaTopicRead_writes d' w') as Hjournal;
      destruct (kafkaTopicRead d' w') as [[diags d''] w'']
  end.
  exact Hjournal.
Qed.

(** X16. When the server refuses the create of a topic, the create returns
    the create error that wraps the error of the call, the resource gets no
    identifier (it is as it was), and no further call is made. *)
Theorem topic_create_refused d w resp err r1 :
  CreateKafkaV3Topic (topicClient d)
    (mkCreateTopicRequestData (t_topic_name (rd_attrs d))
       (int32 (t_partitions_count (rd_attrs d))) (extractConfigs (t_config (rd_attrs d))))
    (served (remote w)) = (ApiErr resp err, r1) →
  fst (kafkaTopicCreate d w) = ([ErrTopicCreate (Some (Descriptive err))], d)
  ∧ served (remote (snd (kafkaTopicCreate d w))) = r1
  ∧ calls (snd (kafkaTopicCreate d w)) = calls w.
Proof.
  intros Hcreate.
  assert (kafkaTopicCreate d w
          = (([ErrTopicCreate (Some (Descriptive err))], d),
             mkWorld
               (mkJournaled r1
                  (writes (remote w) ++
                   [WriteCreateTopic (topicClient d)
                      (mkCreateTopicRequestData (t_topic_name (rd_attrs d))
                         (int32 (t_partitions_count (rd_attrs d)))
                         (extractConfigs (t_config (rd_attrs d))))]))
               (calls w))) as ->; [|done].
  unfold kafkaTopicCreate, executeKafkaTopicCreate, remote_write.
  unfold mbind, M_bind at 1. by rewrite Hcreate.
Qed.

(** X17. After an accepted create the topic is read back under the
    identifier built from the cluster ID and topic name of [d]. When that
    fetch answers 404 on the resource marked new, the create returns the
    error and the resource keeps the identifier; when the topic and its
    settings are fetched, the create succeeds and the configuration map of
    the state holds the dynamic settings that the server listed, not the map
    that was requested. *)
Theorem topic_create_reads_back d w created r1 :
  CreateKafkaV3Topic (topicClient d)
    (mkCreateTopicRequestData (t_topic_name (rd_attrs d))
       (int32 (t_partitions_count (rd_attrs d))) (extractConfigs (t_config (rd_attrs d))))
    (served (remote w)) = (ApiOk created, r1) →
  let topicId :=
    createKafkaTopicId (t_kafka_cluster_id (rd_attrs d)) (t_topic_name (rd_attrs d)) in
  (∀ err r2,
     IsNewResource d = true →
     GetKafkaV3Topic (topicClient d) (t_topic_name (rd_attrs d)) r1
       = (ApiErr (Some (mkResponse StatusNotFound)) err, r2) →
     fst (kafkaTopicCreate d w) = ([Passed (Descriptive err)], SetId topicId d))
  ∧ (∀ kafkaTopic r2 data r3,
       GetKafkaV3Topic (topicClient d) (t_topic_name (rd_attrs d)) r1
         = (ApiOk kafkaTopic, r2) →
       ListKafkaV3TopicConfigs (topicClient d) (t_topic_name (rd_attrs d)) r2
         = (ApiOk data, r3) →
       ∃ d', fst (kafkaTopicCreate d w) = ([], d')
         ∧ Id d' = topicId
         ∧ t_config (rd_attrs d') = collectDynamicConfigs data ∅).
Proof.
  intros Hcreate topicId. split.
  - intros err r2 Hnew Hget.
    unfold kafkaTopicCreate, executeKafkaTopicCreate, remote_write.
    unfold mbind, M_bind at 1. rewrite Hcreate. unfold mbind, M_bind at 1.
    match goal with
    | |- context [kafkaTopicRead ?d' ?w'] =>
        pose proof (kafkaTopicRead_not_found d' w' err
                      (mkJournaled r2 (writes (remote w'))) (passJournal_eq _ _ _ _ Hget))
          as Hread;
        destruct (kafkaTopicRead d' w') as [[diags d''] w'']
    end.
    unfold IsNewResource in Hnew, Hread. simpl in Hread. rewrite Hnew in Hread.
    by injection Hread as -> ->.
  - intros kafkaTopic r2 data r3 Hget Hlist.
    unfold kafkaTopicCreate, executeKafkaTopicCreate, remote_write.
    unfold mbind, M_bind at 1. rewrite Hcreate. unfold mbind, M_bind at 1.
    unfold kafkaTopicRead. unfold mbind, M_bind at 1.
    match goal with
    | |- context [readTopicAndSetAttributes ?d' ?c ?t ?w'] =>
        rewrite (readTopicAndSetAttributes_fetched d' c t w' kafkaTopic
                   (mkJournaled r2 (writes (remote w'))) data
                   (mkJournaled r3 (writes (remote w'))))
    end.
    + simpl. eexists. split; [done|]. by split.
    + simpl. unfold passJournal, topicClient in *. simpl. by rewrite Hget.
    + simpl. unfold passJournal, topicClient in *. simpl. by rewrite Hlist.
Qed.

End TopicCreateProperties.

(** ** Creating and deleting an ACL *)

Section AclWriteProperties.
Context {W : Type} `{KafkaRest W} `{KafkaRestWrites W}.
Implicit Types (d : AclResourceData) (w : World (Journaled W)).

(** An ACL Read leaves the journal of the writes as it is. *)
Lemma kafkaAclRead_writes d w :
  writes (remote (snd (kafkaAclRead d w))) = writes (remote w).
Proof.
  unfold kafkaAclRead. destruct (extractAcl d) as [err|acl]; [done|].
  destruct (negb _); [done|].
  unfold readAclAndSetAttributes. run_remote. unfold passJournal.
  destruct (LookupPrincipalIntegerId _ (served (remote w))) as [[err|integerId] r1];
    simpl; [done|].
  destruct (GetKafkaV3Acls _ _ r1) as [[data|resp err] r2]; simpl.
  - by destruct data as [|m [|m' data]].
  - by destruct (_ && _).
Qed.

(** X18. An ACL create and an ACL delete send no write when the ACL cannot
    be extracted from [d] (they then make no call at all) or when its
    principal cannot be resolved (they then have made the lookup alone); they
    return that error, and a create leaves the resource without
    identifier. *)
Theorem acl_writes_need_extraction_and_principal d w :
  (∀ err, extractAcl d = inl err →
     kafkaAclCreate d w = (([Passed (Descriptive err)], d), w)
     ∧ kafkaAclDelete d w = ([Passed (Descriptive err)], w))
  ∧ (∀ acl err r1,
       extractAcl d = inr acl →
       LookupPrincipalIntegerId (Principal acl) (served (remote w)) = (inl err, r1) →
       kafkaAclCreate d w
       = (([Passed (Descriptive err)], d),
          mkWorld (mkJournaled r1 (writes (remote w)))
            (calls w ++ [CallLookupPrincipal (Principal acl)]))
       ∧ kafkaAclDelete d w
         = ([Passed (Descriptive err)],
            mkWorld (mkJournaled r1 (writes (remote w)))
              (calls w ++ [CallLookupPrincipal (Principal acl)]))).
Proof.
  split.
  - intros err Hacl. unfold kafkaAclCreate, kafkaAclDelete. by rewrite Hacl.
  - intros acl err r1 Hacl Hlook. unfold kafkaAclCreate, kafkaAclDelete. rewrite Hacl.
    run_remote. unfold passJournal. by rewrite Hlook.
Qed.

(** X19. Once the ACL is extracted and its principal resolved, an ACL create
    sends one write, whatever it answers and whatever the Read after it
    does: the create request with the fields of the ACL and the integer form
    of the principal. When the server refuses it, the create returns the
    create error that wraps the error of the call and the resource gets no
    identifier. *)
Theorem acl_create_request d w acl integerId r1 :
  extractAcl d = inr acl →
  LookupPrincipalIntegerId (Principal acl) (served (remote w)) = (inr integerId, r1) →
  let request :=
    mkCreateAclRequestData (ResourceType acl) (ResourceName acl) (PatternType acl)
      integerId (Host acl) (Operation acl) (Permission acl) in
  writes (remote (snd (kafkaAclCreate d w)))
  = writes (remote w) ++ [WriteCreateAcls (aclClient d) request]
  ∧ (∀ resp err r2,
       CreateKafkaV3Acls (aclClient d) request r1 = (ApiErr resp err, r2) →
       kafkaAclCreate d w
       = (([ErrAclCreate (Some (Descriptive err))], d),
          mkWorld (mkJournaled r2 (writes (remote w) ++ [WriteCreateAcls (aclClient d) request]))
            (calls w ++ [CallLookupPrincipal (Principal acl)]))).
Proof.
  intros Hacl Hlook request. split.
  - unfold kafkaAclCreate. rewrite Hacl.
    unfold principalWithResourceIdToPrincipalWithIntegerId, remote_call.
    unfold mbind, M_bind at 1. simpl. unfold passJournal at 1. rewrite Hlook.
    unfold executeKafkaAclCreate, remote_write. unfold mbind, M_bind at 1. simpl.
    fold request.
    destruct (CreateKafkaV3Acls (aclClient d) request r1) as [[[]|resp err] r2]; [|done].
    unfold mbind, M_bind at 1.
    match goal with
    | |- context [kafkaAclRead ?d' ?w'] =>
        pose proof (kafkaAclRead_writes d' w') as Hjournal;
        destruct (kafkaAclRead d' w') as [[diags d''] w'']
    end.
    exact Hjournal.
  - intros resp err r2 Hcreate. unfold kafkaAclCreate. rewrite Hacl.
    unfold principalWithResourceIdToPrincipalWithIntegerId, remote_call.
    unfold mbind, M_bind at 1. simpl. unfold passJournal at 1. rewrite Hlook.
    unfold executeKafkaAclCreate, remote_write. unfold mbind, M_bind at 1. simpl.
    fold request. by rewrite Hcreate.
Qed.

(** X20. After an accepted ACL create the ACL is read back under the
    identifier built from the cluster ID and the seven fields of [d], with a
    second lookup of the principal. When the server then lists one match, the
    create succeeds with that identifier and the principal of [d] in state;
    when it lists none, the create returns the no-match error and the
    resource keeps the identifier. *)
Theorem acl_create_reads_back d w acl integerId r1 r2 integerId' r3 :
  extractAcl d = inr acl →
  GoStrings.HasPrefix (Principal acl) "User:sa-"
  || GoStrings.HasPrefix (Principal acl) "User:u-" = true →
  LookupPrincipalIntegerId (Principal acl) (served (remote w)) = (inr integerId, r1) →
  CreateKafkaV3Acls (aclClient d)
    (mkCreateAclRequestData (ResourceType acl) (ResourceName acl) (PatternType acl)
       integerId (Host acl) (Operation acl) (Permission acl)) r1 = (ApiOk (), r2) →
  LookupPrincipalIntegerId (Principal acl) r2 = (inr integerId', r3) →
  let aclId := createKafkaAclId (a_kafka_cluster_id (rd_attrs d)) acl in
  (∀ matchedAcl r4,
     GetKafkaV3Acls (aclClient d) (getAclsOpts acl integerId') r3 = (ApiOk [matchedAcl], r4) →
     ∃ d', fst (kafkaAclCreate d w) = ([], d')
       ∧ Id d' = aclId
       ∧ a_principal (rd_attrs d') = Principal acl
       ∧ calls (snd (kafkaAclCreate d w))
         = calls w ++ [CallLookupPrincipal (Principal acl);
                       CallLookupPrincipal (Principal acl);
                       CallGetAcls (aclClient d) (getAclsOpts acl integerId')])
  ∧ (∀ r4,
       GetKafkaV3Acls (aclClient d) (getAclsOpts acl integerId') r3 = (ApiOk [], r4) →
       fst (kafkaAclCreate d w)
       = ([Passed (Descriptive (ErrAclNoneMatched aclId))], SetId aclId d)).
Proof.
  intros Hacl Hprefix Hlook Hcreate Hlook' aclId.
  assert (∀ data r4,
            GetKafkaV3Acls (aclClient d) (getAclsOpts acl integerId') r3 = (ApiOk data, r4) →
            kafkaAclCreate d w
            = (let '((err, d'), w') :=
                 (match data with
                  | [] => (Some (ErrAclNoneMatched aclId), SetId aclId d)
                  | [matchedAcl] =>
                      (None, mkResourceData aclId (rd_isNew d) (rd_state d)
                               (setAclAttributes (aclClient d) matchedAcl acl (rd_attrs d)))
                  | _ :: _ :: _ => (Some (ErrAclMultipleMatched aclId), SetId aclId d)
                  end,
                  mkWorld
                    (mkJournaled r4
                       (writes (remote w) ++
                        [WriteCreateAcls (aclClient d)
                           (mkCreateAclRequestData (ResourceType acl) (ResourceName acl)
                              (PatternType acl) integerId (Host acl) (Operation acl)
                              (Permission acl))]))
                    (calls w ++ [CallLookupPrincipal (Principal acl);
                                 CallLookupPrincipal (Principal acl);
                                 CallGetAcls (aclClient d) (getAclsOpts acl integerId')])) in
               ((Passed <$> diag_FromErr (createDescriptiveError err), d'), w'))) as Hrun.
  { intros data r4 Hget. unfold kafkaAclCreate. rewrite Hacl.
    unfold principalWithResourceIdToPrincipalWithIntegerId at 1, remote_call.
    unfold mbind, M_bind at 1. simpl. unfold passJournal at 1. rewrite Hlook.
    unfold executeKafkaAclCreate, remote_write. unfold mbind, M_bind at 1. simpl.
    rewrite Hcreate. unfold mbind, M_bind at 1.
    unfold kafkaAclRead.
    replace (extractAcl (SetId _ d)) with (extractAcl d) by done.
    rewrite Hacl, Hprefix. simpl. unfold mbind, M_bind at 1.
    unfold readAclAndSetAttributes. run_remote. unfold passJournal.
    cbn [served writes]. rewrite Hlook'. simpl.
    unfold aclClient in *. simpl. rewrite Hget. simpl.
    rewrite <- !app_assoc. simpl.
    by destruct data as [|m [|m' data]]. }
  split.
  - intros matchedAcl r4 Hget. rewrite (Hrun _ _ Hget). simpl.
    eexists. split; [done|]. by repeat split.
  - intros r4 Hget. by rewrite (Hrun _ _ Hget).
Qed.

(** X21. Once the ACL is extracted and its principal resolved, an ACL delete
    sends one write, the delete with the fields of the ACL and the integer
    form of the principal as filters, after the lookup alone. It succeeds
    whenever the server accepts the delete, whatever ACLs the server reports
    as deleted (none included), and returns the delete error that wraps the
    error of the call otherwise. *)
Theorem acl_delete_request d w acl integerId r1 :
  extractAcl d = inr acl →
  LookupPrincipalIntegerId (Principal acl) (served (remote w)) = (inr integerId, r1) →
  let opts :=
    mkDeleteKafkaV3AclsOpts (ResourceType acl) (ResourceName acl) (PatternType acl)
      integerId (Host acl) (Operation acl) (Permission acl) in
  (∀ deleted r2,
     DeleteKafkaV3Acls (aclClient d) opts r1 = (ApiOk deleted, r2) →
     kafkaAclDelete d w
     = ([], mkWorld (mkJournaled r2 (writes (remote w) ++ [WriteDeleteAcls (aclClient d) opts]))
              (calls w ++ [CallLookupPrincipal (Principal acl)])))
  ∧ (∀ resp err r2,
       DeleteKafkaV3Acls (aclClient d) opts r1 = (ApiErr resp err, r2) →
       kafkaAclDelete d w
       = ([ErrAclDelete (Id d) (Some (Descriptive err))],
          mkWorld (mkJournaled r2 (writes (remote w) ++ [WriteDeleteAcls (aclClient d) opts]))
            (calls w ++ [CallLookupPrincipal (Principal acl)]))).
Proof.
  intros Hacl Hlook opts.
  split; [intros deleted r2 Hdel|intros resp err r2 Hdel];
    unfold kafkaAclDelete; rewrite Hacl;
    unfold principalWithResourceIdToPrincipalWithIntegerId, remote_call;
    unfold mbind, M_bind at 1; simpl; unfold passJournal at 1; rewrite Hlook;
    unfold remote_write; unfold mbind, M_bind at 1; simpl; fold opts;
    by rewrite Hdel.
Qed.

End AclWriteProperties.

Lemma topic_create_refused_witness :
  fst (kafkaTopicCreate (SetId "" (ordersState true)) (startJournal (ordersRemote true)))
  = ([ErrTopicCreate (Some (Descriptive (RemoteError "400 Bad Request: topic exists")))],
     SetId "" (ordersState true)).
Proof.
  apply (topic_create_refused (SetId "" (ordersState true)) (startJournal (ordersRemote true))
           (Some (mkResponse 400)) (RemoteError "400 Bad Request: topic exists")
           (ordersRemote true)).
  reflexivity.
Defined.

Lemma topic_create_reads_back_witness :
  ∃ d',
    fst (kafkaTopicCreate (freshTopic 6) (startJournal (ordersRemote true))) = ([], d')
    ∧ Id d' = "lkc-1/fresh"
    ∧ t_config (rd_attrs d') !! "retention.ms" = Some "5".
Proof.
  edestruct (topic_create_reads_back (freshTopic 6) (startJournal (ordersRemote true)))
    as [_ Hread]; [reflexivity|].
  edestruct Hread as (d' & Hrun & Hid & Hconfig); [reflexivity..|].
  exists d'. rewrite Hrun, Hid, Hconfig. by repeat split.
Defined.

Lemma acl_writes_need_extraction_and_principal_witness :
  kafkaAclCreate (freshAcl "User:sa-zzz999") (startJournal (aclRemote (Some [])))
  = (([Passed (Descriptive (RemoteError "unknown principal"))], freshAcl "User:sa-zzz999"),
     mkWorld (mkJournaled (aclRemote (Some [])) []) [CallLookupPrincipal "User:sa-zzz999"])
  ∧ kafkaAclDelete (freshAcl "User:sa-zzz999") (startJournal (aclRemote (Some [])))
    = ([Passed (Descriptive (RemoteError "unknown principal"))],
       mkWorld (mkJournaled (aclRemote (Some [])) []) [CallLookupPrincipal "User:sa-zzz999"]).
Proof.
  apply (proj2 (acl_writes_need_extraction_and_principal (freshAcl "User:sa-zzz999")
                  (startJournal (aclRemote (Some []))))
           (mkAcl "TOPIC" "orders" "LITERAL" "User:sa-zzz999" "*" "READ" "ALLOW")
           (RemoteError "unknown principal") (aclRemote (Some []))); reflexivity.
Defined.

Lemma acl_create_request_witness :
  writes (remote (snd (kafkaAclCreate (freshAcl "User:sa-abc123")
                         (startJournal (aclRemote (Some []))))))
  = [] ++ [WriteCreateAcls (aclClient (freshAcl "User:sa-abc123"))
             (mkCreateAclRequestData "TOPIC" "orders" "LITERAL" "User:1234" "*" "READ" "ALLOW")].
Proof.
  apply (acl_create_request (freshAcl "User:sa-abc123") (startJournal (aclRemote (Some [])))
           readOrdersAcl "User:1234" (aclRemote (Some []))); reflexivity.
Defined.

Lemma acl_create_reads_back_witness :
  ∃ d',
    fst (kafkaAclCreate (freshAcl "User:sa-abc123") (startJournal (aclRemote (Some []))))
    = ([], d')
    ∧ Id d' = "lkc-1/TOPIC#orders#LITERAL#User:sa-abc123#*#READ#ALLOW"
    ∧ a_principal (rd_attrs d') = "User:sa-abc123".
Proof.
  edestruct (acl_create_reads_back (freshAcl "User:sa-abc123")
               (startJournal (aclRemote (Some []))) readOrdersAcl "User:1234"
               (aclRemote (Some [])) (aclRemote (Some [readOrdersAclData])) "User:1234"
               (aclRemote (Some [readOrdersAclData])))
    as [Hmatched _]; [reflexivity..|].
  destruct (Hmatched readOrdersAclData (aclRemote (Some [readOrdersAclData])))
    as (d' & Hrun & Hid & Hprincipal & _); [reflexivity|].
  exists d'. rewrite Hrun, Hid, Hprincipal. by repeat split.
Defined.

Lemma acl_delete_request_witness :
  kafkaAclDelete (aclState "User:sa-abc123" false)
    (startJournal (aclRemote (Some [readOrdersAclData])))
  = ([], mkWorld
           (mkJournaled (aclRemote (Some []))
              ([] ++ [WriteDeleteAcls (aclClient (aclState "User:sa-abc123" false))
                        (mkDeleteKafkaV3AclsOpts "TOPIC" "orders" "LITERAL" "User:1234" "*"
                           "READ" "ALLOW")]))
           ([] ++ [CallLookupPrincipal "User:sa-abc123"])).
Proof.
  edestruct (acl_delete_request (aclState "User:sa-abc123" false)
               (startJournal (aclRemote (Some [readOrdersAclData])))
               readOrdersAcl "User:1234" (aclRemote (Some [readOrdersAclData])))
    as [Haccepted _]; [reflexivity..|].
  apply (Haccepted [readOrdersAclData] (aclRemote (Some []))). reflexivity.
Defined.

(** ** Reading a topic twice *)

(** X22. A topic Read is stable: after a Read that fetched the topic under
    the name it asked for, a second Read to which the server gives the same
    answers succeeds and leaves the resource exactly as the first Read left
    it. *)
Theorem topic_read_twice {W : Type} `{KafkaRest W} (d : TopicResourceData) (w : World W)
    kafkaTopic r1 data r2 r3 r4 :
  TopicName kafkaTopic = t_topic_name (rd_attrs d) →
  GetKafkaV3Topic (topicClient d) (t_topic_name (rd_attrs d)) (remote w)
    = (ApiOk kafkaTopic, r1) →
  ListKafkaV3TopicConfigs (topicClient d) (t_topic_name (rd_attrs d)) r1
    = (ApiOk data, r2) →
  GetKafkaV3Topic (topicClient d) (t_topic_name (rd_attrs d)) r2
    = (ApiOk kafkaTopic, r3) →
  ListKafkaV3TopicConfigs (topicClient d) (t_topic_name (rd_attrs d)) r3
    = (ApiOk data, r4) →
  ∃ d' w',
    kafkaTopicRead d w = (([], d'), w')
    ∧ fst (kafkaTopicRead d' w') = ([], d').
Proof.
  intros Hname Hget Hlist Hget' Hlist'.
  unfold kafkaTopicRead at 1. unfold mbind, M_bind at 1.
  rewrite (readTopicAndSetAttributes_fetched d _ _ w _ _ _ _ Hget Hlist).
  do 2 eexists. split; [done|].
  unfold kafkaTopicRead. unfold mbind, M_bind at 1.
  rewrite (readTopicAndSetAttributes_fetched _ _ _ _ kafkaTopic r3 data r4).
  - simpl. by rewrite Hname.
  - unfold topicClient in *. simpl. rewrite Hname. exact Hget'.
  - unfold topicClient in *. simpl. rewrite Hname. exact Hlist'.
Qed.

Lemma topic_read_twice_witness :
  ∃ d' w',
    kafkaTopicRead (ordersState false) (startWorld (ordersRemote true)) = (([], d'), w')
    ∧ fst (kafkaTopicRead d' w') = ([], d').
Proof.
  apply (topic_read_twice (ordersState false) (startWorld (ordersRemote true))
           (mkTopicData "orders" 6) (ordersRemote true) ordersConfigs (ordersRemote true)
           (ordersRemote true) (ordersRemote true)); reflexivity.
Defined.
